(** * Cleaner.py: the seven-stage protein table cleaner

    A shallow embedding of [src/Cleaner.py] (class [Clean]) and the
    properties its specification states about it.

    Modelling choices.
    - A Polars [DataFrame] is a header ([columns]), the dtypes of the
      intensity columns ([dtypes]) and a list of rows.  The first column
      holds the identifier (a nullable string), every other column an
      intensity.  An intensity column is [Int64], a column of whole numbers
      whose arithmetic wraps around at 64 bits, or [Utf8], the dtype that
      [pl.read_excel] gives a column without any number; its cells are
      nullable integers ([option Z]).  [Float64] columns, with their
      rounding and NaN, are outside the model.
    - A Polars expression is evaluated row by row into a nullable boolean
      ([option bool]) with Kleene's three-valued connectives, and
      [DataFrame.filter] keeps the rows on which the predicate is [Some true].
    - [self.df] is threaded explicitly: every stage is a function
      [DataFrame -> result DataFrame], where [Err] stands for a raised
      exception.  The progress [print]s and the optional [write_csv] of the
      result do not change the table and are omitted.
    - Strings are byte strings.  [str.to_lowercase] is modelled on the ASCII
      letters; no character outside ASCII lowercases to a letter of
      ["contam"], so the Stage 3 test is unaffected. *)

From Stdlib Require Import String Ascii List ZArith Bool Lia.
Import ListNotations.
Open Scope string_scope.
Open Scope Z_scope.

(** ** Exceptions and the error monad *)

Inductive exn : Type :=
| IndexError       (* Python: list index out of range *)
| TypeError        (* Python: bad operand type *)
| DuplicateError   (* Polars: a column name occurs twice *)
| SchemaError      (* Polars: unexpected schema *)
| ComputeError     (* Polars: an expression cannot be evaluated *)
| NoDataError.     (* Polars: the sheet to read is empty *)

Inductive result (A : Type) : Type :=
| Ok (a : A)
| Err (e : exn).
Arguments Ok {A} a.
Arguments Err {A} e.

Definition bind {A B : Type} (m : result A) (f : A -> result B) : result B :=
  match m with
  | Ok a => f a
  | Err e => Err e
  end.

(** ** Nullable booleans (Kleene logic, as Polars evaluates [&], [|], [~]) *)

Definition kand (a b : option bool) : option bool :=
  match a, b with
  | Some false, _ | _, Some false => Some false
  | Some true, Some true => Some true
  | _, _ => None
  end.

Definition kor (a b : option bool) : option bool :=
  match a, b with
  | Some true, _ | _, Some true => Some true
  | Some false, Some false => Some false
  | _, _ => None
  end.

Definition knot (a : option bool) : option bool := option_map negb a.

(** ** String operations of the [str] namespace *)

Fixpoint starts_with (p s : string) : bool :=
  match p, s with
  | EmptyString, _ => true
  | String a p', String b s' => Ascii.eqb a b && starts_with p' s'
  | String _ _, EmptyString => false
  end.

(** [str.contains] with a pattern free of metacharacters: substring search. *)
Fixpoint contains (pat s : string) : bool :=
  starts_with pat s ||
  match s with
  | EmptyString => false
  | String _ s' => contains pat s'
  end.

Definition lower_ascii (c : ascii) : ascii :=
  let n := nat_of_ascii c in
  if (Nat.leb 65 n && Nat.leb n 90)%bool then ascii_of_nat (n + 32) else c.

Fixpoint to_lowercase (s : string) : string :=
  match s with
  | EmptyString => EmptyString
  | String c s' => String (lower_ascii c) (to_lowercase s')
  end.

Definition bar : ascii := "|"%char.

(** The longest prefix of [s] free of ['|']: what [[^|]+] consumes. *)
Fixpoint take_field (s : string) : string :=
  match s with
  | EmptyString => EmptyString
  | String c s' => if Ascii.eqb c bar then EmptyString else String c (take_field s')
  end.

Fixpoint strip_prefix (p s : string) : option string :=
  match p, s with
  | EmptyString, _ => Some s
  | String a p', String b s' => if Ascii.eqb a b then strip_prefix p' s' else None
  | String _ _, EmptyString => None
  end.

(** [str.extract(r"RepID=([^|]+)", 1)]: the first capture group of the
    leftmost match, [None] (null) when the pattern matches nowhere. *)
Fixpoint extract_RepID (s : string) : option string :=
  match strip_prefix "RepID=" s with
  | Some (String c rest) =>
      if Ascii.eqb c bar then
        match s with
        | EmptyString => None
        | String _ s' => extract_RepID s'
        end
      else Some (take_field (String c rest))
  | _ =>
      match s with
      | EmptyString => None
      | String _ s' => extract_RepID s'
      end
  end.

(** ** Tables *)

Record Row : Type := mkRow {
  protein : option string;
  values : list (option Z)
}.

Inductive dtype : Type :=
| Int64    (* whole numbers, 64 bits, signed *)
| Utf8.    (* strings; what a column without any number is read as *)

Definition is_Utf8 (t : dtype) : bool :=
  match t with
  | Utf8 => true
  | Int64 => false
  end.

(** [dtypes] lists the dtypes of the intensity columns in header order; a
    column it does not reach is [Int64]. *)
Record DataFrame : Type := mkFrame {
  columns : list string;
  dtypes : list dtype;
  rows : list Row
}.

Definition all_Int64 (cols : list string) : list dtype :=
  map (fun _ => Int64)
      (filter (fun c => negb (String.eqb c "protein")) cols).

(** A table of whole numbers. *)
Abbreviation mkDF cols rs := (mkFrame cols (all_Int64 cols) rs).

(** Int64 arithmetic: the value of [x] in 64 bits, two's complement. *)
Definition wrap64 (x : Z) : Z := (x + 2 ^ 63) mod 2 ^ 64 - 2 ^ 63.

(** [df.filter(pred)]: rows whose predicate is null are dropped too. *)
Definition keeps (pred : Row -> option bool) (r : Row) : bool :=
  match pred r with
  | Some true => true
  | _ => false
  end.

Definition df_filter (pred : Row -> option bool) (df : DataFrame) : DataFrame :=
  mkFrame (columns df) (dtypes df) (filter (keeps pred) (rows df)).

(** [[c for c in self.df.columns if c != "protein"]] *)
Definition value_cols (df : DataFrame) : list string :=
  filter (fun c => negb (String.eqb c "protein")) (columns df).

(** Position of a column among the intensity columns of a header. *)
Fixpoint col_index (c : string) (names : list string) : option nat :=
  match names with
  | [] => None
  | n :: names' =>
      if String.eqb c n then Some O
      else option_map S (col_index c names')
  end.

(** [pl.col(c)] on a row, for an intensity column [c] of [df]. *)
Definition col (df : DataFrame) (c : string) (r : Row) : option Z :=
  match col_index c (value_cols df) with
  | Some i => nth i (values r) None
  | None => None
  end.

(** The dtype of the intensity column [c] of [df]. *)
Definition col_dtype (df : DataFrame) (c : string) : dtype :=
  match col_index c (value_cols df) with
  | Some i => nth i (dtypes df) Int64
  | None => Int64
  end.

(** ** Expression atoms *)

Definition is_null {A : Type} (v : option A) : option bool :=
  Some (match v with None => true | Some _ => false end).

Definition is_not_null {A : Type} (v : option A) : option bool :=
  Some (match v with None => false | Some _ => true end).

(** [expr != lit] and [expr == lit]: null on a null operand. *)
Definition str_ne (v : option string) (lit : string) : option bool :=
  option_map (fun s => negb (String.eqb s lit)) v.

Definition num_eq (v : option Z) (lit : Z) : option bool :=
  option_map (fun x => Z.eqb x lit) v.

(** [pl.when(c).then(t).otherwise(e)]: a null condition selects [e]. *)
Definition when_then_otherwise {A : Type} (c : option bool) (t e : A) : A :=
  match c with
  | Some true => t
  | _ => e
  end.

(** ** The class [Clean] *)

Definition has_dup (l : list string) : bool :=
  negb (Nat.eqb (length (nodup string_dec l)) (length l)).

(** [df.rename({old: new})] *)
Definition rename (old new : string) (df : DataFrame) : result DataFrame :=
  let cols := map (fun c => if String.eqb c old then new else c) (columns df) in
  if has_dup cols then Err DuplicateError
  else Ok (mkFrame cols (dtypes df) (rows df)).

(** [pl.read_excel(file_path)], the sheet being given as the frame that its
    cells parse to: a sheet without any column is empty, and reading it
    raises [NoDataError]. *)
Definition read_excel (sheet : DataFrame) : result DataFrame :=
  match columns sheet with
  | [] => Err NoDataError
  | _ :: _ => Ok sheet
  end.

(** [Clean.__init__] on the sheet that [file_path] names. *)
Definition Clean_init (sheet : DataFrame) : result DataFrame :=
  bind (read_excel sheet)
       (fun df =>
          match columns df with
          | [] => Err IndexError
          | original_first :: _ => rename original_first "protein" df
          end).

Definition step1 (df : DataFrame) : result DataFrame :=
  Ok (df_filter
        (fun r => kand (is_not_null (protein r)) (str_ne (protein r) ""))
        df).

(** The loop of [__step2__]: [mask] starts as Python's [None]. *)
Definition step2_mask (df : DataFrame) : option (Row -> option bool) :=
  fold_left
    (fun mask c =>
       let cond := fun r => kor (is_null (col df c r)) (num_eq (col df c r) 0) in
       Some (match mask with
             | None => cond
             | Some m => fun r => kand (m r) (cond r)
             end))
    (value_cols df) None.

(** Some intensity column is a column of strings. *)
Definition has_string_column (df : DataFrame) : bool :=
  existsb (fun c => is_Utf8 (col_dtype df c)) (value_cols df).

(** [~mask] on Python's [None] raises [TypeError].  Otherwise the filter
    evaluates the mask, and the [pl.col(c) == 0] of a column of strings
    cannot be evaluated: Polars raises [ComputeError]. *)
Definition step2 (df : DataFrame) : result DataFrame :=
  match step2_mask df with
  | None => Err TypeError
  | Some mask =>
      if has_string_column df then Err ComputeError
      else Ok (df_filter (fun r => knot (mask r)) df)
  end.

Definition step3 (df : DataFrame) : result DataFrame :=
  Ok (df_filter
        (fun r => knot (option_map (fun s => contains "contam" (to_lowercase s))
                                   (protein r)))
        df).

Definition step4 (df : DataFrame) : result DataFrame :=
  Ok (df_filter
        (fun r => knot (option_map (contains "RepID=unknown") (protein r)))
        df).

Definition step5_protein (p : option string) : option string :=
  when_then_otherwise (option_map (starts_with "k77") p)
    (match p with
     | Some s => extract_RepID s
     | None => None
     end)
    p.

Definition step5 (df : DataFrame) : result DataFrame :=
  Ok (mkFrame (columns df) (dtypes df)
              (map (fun r => mkRow (step5_protein (protein r)) (values r))
                   (rows df))).

Definition blacklist : list string :=
  [ "W1WC08_9ZZZZ"; "W1WM01_9ZZZZ"; "W1Y9K7_9ZZZZ"; "W1YGV0_9ZZZZ";
    "W1YKP9_9ZZZZ"; "W1YP67_9ZZZZ"; "W1YRV8_9ZZZZ"; "A0A0F9P276_9ZZZZ";
    "J9G8E8_9ZZZZ"; "J9GD12_9ZZZZ" ].

(** [str.contains("|".join(alts))]: the joined pattern is the alternation of
    the literals, found when one of them is a substring. *)
Definition contains_any (alts : list string) (s : string) : bool :=
  existsb (fun a => contains a s) alts.

Definition step6 (df : DataFrame) : result DataFrame :=
  Ok (df_filter
        (fun r => knot (option_map (contains_any blacklist) (protein r)))
        df).

Definition key_eqb (a b : option string) : bool :=
  match a, b with
  | None, None => true
  | Some x, Some y => String.eqb x y
  | _, _ => false
  end.

(** [group_by("protein", maintain_order=True)]: a row joins the group of its
    key, a new key opens a group behind the groups opened so far. *)
Fixpoint insert_group (r : Row) (gs : list (option string * list Row))
  : list (option string * list Row) :=
  match gs with
  | [] => [(protein r, [r])]
  | (k, g) :: gs' =>
      if key_eqb (protein r) k then (k, (g ++ [r])%list) :: gs'
      else (k, g) :: insert_group r gs'
  end.

Definition group_by (rs : list Row) : list (option string * list Row) :=
  fold_left (fun gs r => insert_group r gs) rs [].

(** [pl.sum(c)] over a group.  On a column of whole numbers nulls are
    skipped, the sum starts from 0 and every addition wraps around at 64
    bits; on a column of strings there is nothing to add and the result is
    null. *)
Definition sum_col (df : DataFrame) (c : string) (g : list Row) : option Z :=
  match col_dtype df c with
  | Int64 =>
      Some (fold_left
              (fun acc r => match col df c r with
                            | Some v => wrap64 (acc + v)
                            | None => acc
                            end)
              g 0)
  | Utf8 => None
  end.

Definition step7 (df : DataFrame) : result DataFrame :=
  let vc := value_cols df in
  Ok (mkFrame ("protein" :: vc) (dtypes df)
              (map (fun kg =>
                      mkRow (fst kg) (map (fun c => sum_col df c (snd kg)) vc))
                   (group_by (rows df)))).

Definition run_filters (df : DataFrame) : result DataFrame :=
  fold_left (fun acc step => bind acc step)
            [step1; step2; step3; step4; step5; step6; step7]
            (Ok df).

(** The script: construct the cleaner on the loaded frame, run the stages. *)
Definition main (raw : DataFrame) : result DataFrame :=
  bind (Clean_init raw) run_filters.

(** ** The scenario table of the specification *)

Definition scenario : DataFrame :=
  mkDF ["protein"; "S1"; "S2"]
       [ mkRow (Some "") [Some 5; Some 0];
         mkRow (Some "CONTAM_A") [Some 10; Some 10];
         mkRow (Some "P1|RepID=unknown") [Some 0; Some 0];
         mkRow (Some "k77x|RepID=Q1|y") [Some 2; Some 0];
         mkRow (Some "Q1") [Some 3; Some 5];
         mkRow (Some "W1WC08_9ZZZZ") [Some 9; Some 9] ].

(** Tables as [Clean] holds them: the identifier column comes first and is
    called [protein], no name occurs twice, and every row has one value per
    intensity column. *)
Definition wf (df : DataFrame) : Prop :=
  columns df = "protein" :: value_cols df /\
  NoDup (value_cols df) /\
  Forall (fun r => length (values r) = length (value_cols df)) (rows df).

(** ** The pattern [RepID=([^|]+)], as the specification reads it *)

Fixpoint bar_free (s : string) : bool :=
  match s with
  | EmptyString => true
  | String c s' => negb (Ascii.eqb c bar) && bar_free s'
  end.

(** What is left of [s] behind [take_field s]. *)
Fixpoint drop_field (s : string) : string :=
  match s with
  | EmptyString => EmptyString
  | String c s' => if Ascii.eqb c bar then s else drop_field s'
  end.

(** The pattern matches in [s] right behind [pre] and captures [cap]: the
    capture is the text between [RepID=] and the next ['|'] (or the end of
    the string), and it is not empty. *)
Definition is_match (s pre cap post : string) : Prop :=
  s = pre ++ "RepID=" ++ cap ++ post /\
  cap <> "" /\
  bar_free cap = true /\
  (post = "" \/ exists post', post = String bar post').

(** A match at the very start of [s]. *)
Definition head_match (s : string) : option string :=
  match strip_prefix "RepID=" s with
  | Some (String c rest) =>
      if Ascii.eqb c bar then None else Some (take_field (String c rest))
  | _ => None
  end.

(** ** Stages 2 and 7, as the specification reads them *)

Definition zero_or_null (v : option Z) : bool :=
  match v with
  | None => true
  | Some x => Z.eqb x 0
  end.

Definition null_as_zero (v : option Z) : Z :=
  match v with
  | Some x => x
  | None => 0
  end.

(** The distinct keys of a list, in the order of their first occurrence. *)
Fixpoint first_occ (ks : list (option string)) : list (option string) :=
  match ks with
  | [] => []
  | k :: ks' => k :: filter (fun k' => negb (key_eqb k' k)) (first_occ ks')
  end.

(** The rows filed under the identifier [k]. *)
Definition members (k : option string) (rs : list Row) : list Row :=
  filter (fun r => key_eqb (protein r) k) rs.

(** The sum of the [j]-th intensity over a group, null counting as 0. *)
Definition sum_at (j : nat) (g : list Row) : Z :=
  fold_right Z.add 0 (map (fun r => null_as_zero (nth j (values r) None)) g).

(** The totals of a group: in a column of whole numbers the sum in 64
    bits, in a column of strings null. *)
Definition group_total (dts : list dtype) (n : nat) (g : list Row)
  : list (option Z) :=
  map (fun j => match nth j dts Int64 with
                | Int64 => Some (wrap64 (sum_at j g))
                | Utf8 => None
                end) (seq 0 n).

(** One row per distinct identifier, carrying the totals of its group. *)
Definition collapse (dts : list dtype) (n : nat) (rs : list Row) : list Row :=
  map (fun k => mkRow k (group_total dts n (members k rs)))
      (first_occ (map protein rs)).

(** A row as Stage 7 leaves it: a number within 64 bits in every column of
    whole numbers, null in every column of strings. *)
Definition settled (dts : list dtype) (r : Row) : Prop :=
  forall j,
    (j < length (values r))%nat ->
    match nth j dts Int64 with
    | Int64 => exists v, nth j (values r) None = Some v /\ wrap64 v = v
    | Utf8 => nth j (values r) None = None
    end.

(** ** Properties of the identifier column *)

Definition ids (P : option string -> Prop) (df : DataFrame) : Prop :=
  forall r, In r (rows df) -> P (protein r).

(** Text that Stages 1, 3 and 4 let through. *)
Definition clean_text (s : string) : Prop :=
  s <> "" /\
  contains "contam" (to_lowercase s) = false /\
  contains "RepID=unknown" s = false.

Definition passed4 (p : option string) : Prop :=
  exists s, p = Some s /\ clean_text s.

(** An identifier that all six filters let through. *)
Definition clean_id (p : option string) : Prop :=
  exists s, p = Some s /\ clean_text s /\ contains_any blacklist s = false.

Definition no_null_value (r : Row) : Prop :=
  forall v, In v (values r) -> v <> None.

(** [d'] keeps the header of [d] and some of its rows. *)
Definition sub_table (d d' : DataFrame) : Prop :=
  columns d' = columns d /\ dtypes d' = dtypes d /\ incl (rows d') (rows d).

(** ** Stages 1 and 5, as the specification reads them *)

(** An identifier that is neither null nor the empty string. *)
Definition has_name (p : option string) : bool :=
  match p with
  | None => false
  | Some s => negb (String.eqb s "")
  end.

(** [r'] is what Stage 5 makes of [r]. *)
Definition rewritten (r r' : Row) : Prop :=
  values r' = values r /\
  match protein r with
  | None => protein r' = None
  | Some s =>
      if starts_with "k77" s then protein r' = extract_RepID s
      else protein r' = Some s
  end.

(** ** Example tables *)

Definition scenario_out : DataFrame :=
  mkDF ["protein"; "S1"; "S2"] [mkRow (Some "Q1") [Some 5; Some 5]].

Definition two_P1 : DataFrame :=
  mkDF ["protein"; "S1"; "S2"]
       [ mkRow (Some "P1") [Some 1; Some 2];
         mkRow (Some "P1") [Some 3; None] ].

Definition unsorted_keys : DataFrame :=
  mkDF ["protein"; "S1"]
       [ mkRow (Some "B") [Some 1];
         mkRow (Some "A") [Some 2];
         mkRow (Some "B") [Some 4] ].

(** A k77 identifier whose RepID starts with k77 again. *)
Definition nested_k77 : DataFrame :=
  mkDF ["protein"; "S1"] [mkRow (Some "k77|RepID=k77abc") [Some 1]].

Definition nested_k77_out : DataFrame :=
  mkDF ["protein"; "S1"] [mkRow (Some "k77abc") [Some 1]].

(** Two rows of one protein whose intensities cancel. *)
Definition cancelling : DataFrame :=
  mkDF ["protein"; "S1"]
       [ mkRow (Some "P1") [Some 1]; mkRow (Some "P1") [Some (-1)] ].

Definition cancelling_out : DataFrame :=
  mkDF ["protein"; "S1"] [mkRow (Some "P1") [Some 0]].


(** A sheet with a column that holds no number: it is read as strings. *)
Definition empty_column : DataFrame :=
  mkFrame ["protein"; "S1"; "S2"] [Int64; Utf8]
          [ mkRow (Some "P1") [Some 1; None];
            mkRow (Some "P2") [Some 2; None] ].

(** A sheet with the identifier column only. *)
Definition only_identifiers : DataFrame :=
  mkDF ["protein"] [mkRow (Some "P1") []].

(** A frame without columns. *)
Definition no_columns : DataFrame := mkDF [] [].

Definition with_null_id : DataFrame :=
  mkDF ["protein"; "S1"]
       [ mkRow None [Some 1]; mkRow (Some "A") [Some 2] ].

Definition k77_without_RepID : DataFrame :=
  mkDF ["protein"; "S1"]
       [ mkRow (Some "k77_orphan") [Some 1]; mkRow (Some "sp|P1") [Some 2] ].

(** One row with a number in the first intensity column only. *)
Definition partly_null : DataFrame :=
  mkDF ["protein"; "S1"; "S2"] [mkRow (Some "P1") [Some 1; None]].

Definition with_space : DataFrame :=
  mkDF ["protein"; "S1"]
       [ mkRow (Some " ") [None]; mkRow (Some "") [Some 5];
         mkRow None [Some 7] ].

(** ** Frames as [pl.read_excel] returns them *)

(** No column name occurs twice, and every row has a cell per column: the
    identifier and one value for each further column. *)
Definition wf_raw (df : DataFrame) : Prop :=
  NoDup (columns df) /\
  Forall (fun r => S (length (values r)) = length (columns df)) (rows df).

(** ** Row filters *)

(** A stage that, on a table and on every selection of its rows, either
    raises one and the same error or filters by one and the same
    predicate. *)
Definition row_filter (step : DataFrame -> result DataFrame) : Prop :=
  forall df,
    (exists e,
       step df = Err e /\
       forall p, step (df_filter p df) = Err e) \/
    (exists pred,
       step df = Ok (df_filter pred df) /\
       forall p, step (df_filter p df) = Ok (df_filter pred (df_filter p df))).

(** A sheet whose first column has a name of its own. *)
Definition raw_sheet : DataFrame :=
  mkFrame ["Unnamed: 0"; "S1"; "S2"] [Int64; Int64]
          [ mkRow (Some "Q1") [Some 3; Some 5];
            mkRow (Some "k77x|RepID=Q1|y") [Some 2; None] ].

(** A sheet that already has a [protein] column behind the first one. *)
Definition raw_sheet_clash : DataFrame :=
  mkDF ["id"; "protein"] [mkRow (Some "Q1") [Some 3]].

(** ** The pipeline in one pass *)




(** * Strings *)

Section Strings.

Lemma append_assoc (a b c : string) : (a ++ b) ++ c = a ++ b ++ c.
Proof. induction a as [|x a IH]; simpl; [reflexivity | now rewrite IH]. Qed.

Lemma strip_prefix_Some (p s t : string) :
  strip_prefix p s = Some t <-> s = p ++ t.
Proof.
  revert s; induction p as [|a p IH]; intros s; simpl.
  - split; intros H; [now inversion H | now subst].
  - destruct s as [|b s].
    + split; intros H; discriminate.
    + destruct (Ascii.eqb a b) eqn:E.
      * apply Ascii.eqb_eq in E; subst b. rewrite IH.
        split; intros H; [now subst | now inversion H].
      * apply Ascii.eqb_neq in E.
        split; intros H; [discriminate | inversion H; congruence].
Qed.

Lemma starts_with_strip (p s : string) :
  starts_with p s = true <-> exists t, strip_prefix p s = Some t.
Proof.
  revert s; induction p as [|a p IH]; intros s; simpl.
  - split; [intros _; now exists s | reflexivity].
  - destruct s as [|b s].
    + split; [discriminate | intros [t H]; discriminate].
    + destruct (Ascii.eqb a b); simpl; [apply IH |].
      split; [discriminate | intros [t H]; discriminate].
Qed.

Lemma starts_with_app (p s : string) :
  starts_with p s = true <-> exists t, s = p ++ t.
Proof.
  rewrite starts_with_strip.
  split; intros [t H]; exists t; now apply strip_prefix_Some.
Qed.

Lemma starts_with_append_r (p s t : string) :
  starts_with p s = true -> starts_with p (s ++ t) = true.
Proof.
  rewrite !starts_with_app. intros [u ->]. exists (u ++ t).
  apply append_assoc.
Qed.

Lemma contains_append_r (p s t : string) :
  contains p s = true -> contains p (s ++ t) = true.
Proof.
  induction s as [|c s IH]; simpl; intros H.
  - rewrite orb_false_r in H.
    destruct p; [| discriminate]. now destruct t.
  - apply orb_true_iff in H. apply orb_true_iff.
    destruct H as [H | H]; [left | right; now apply IH].
    now apply (starts_with_append_r p (String c s) t).
Qed.

Lemma contains_append_l (p s t : string) :
  contains p s = true -> contains p (t ++ s) = true.
Proof.
  intros H. induction t as [|c t IH]; simpl; [exact H |].
  rewrite IH. apply orb_true_r.
Qed.

(** A pattern absent from a string is absent from each of its substrings. *)
Lemma contains_substring (p pre s post : string) :
  contains p (pre ++ s ++ post) = false -> contains p s = false.
Proof.
  intros H. destruct (contains p s) eqn:E; [| reflexivity].
  rewrite contains_append_l in H; [discriminate |].
  now apply contains_append_r.
Qed.

Lemma to_lowercase_append (a b : string) :
  to_lowercase (a ++ b) = to_lowercase a ++ to_lowercase b.
Proof. induction a as [|x a IH]; simpl; [reflexivity | now rewrite IH]. Qed.

End Strings.

(** * The capture of [RepID=([^|]+)] *)

Section Extract.

Lemma take_drop_field (s : string) : s = take_field s ++ drop_field s.
Proof.
  induction s as [|c s IH]; simpl; [reflexivity |].
  destruct (Ascii.eqb c bar); simpl; [reflexivity | now rewrite <- IH].
Qed.

Lemma bar_free_take_field (s : string) : bar_free (take_field s) = true.
Proof.
  induction s as [|c s IH]; simpl; [reflexivity |].
  destruct (Ascii.eqb c bar) eqn:E; simpl; [reflexivity | now rewrite E].
Qed.

Lemma drop_field_head (s : string) :
  drop_field s = "" \/ exists t, drop_field s = String bar t.
Proof.
  induction s as [|c s IH]; simpl; [now left |].
  destruct (Ascii.eqb c bar) eqn:E; [| exact IH].
  apply Ascii.eqb_eq in E; subst c. right; now exists s.
Qed.

(** Greedy: the field ends at the first ['|'] or at the end of the string. *)
Lemma take_field_app (cap post : string) :
  bar_free cap = true ->
  post = "" \/ (exists post', post = String bar post') ->
  take_field (cap ++ post) = cap.
Proof.
  intros Hf Hp. induction cap as [|c cap IH]; simpl in *.
  - destruct Hp as [-> | [t ->]]; reflexivity.
  - apply andb_true_iff in Hf as [Hc Hf].
    apply negb_true_iff in Hc. rewrite Hc. now rewrite IH.
Qed.

Lemma extract_RepID_eq (s : string) :
  extract_RepID s =
  match head_match s with
  | Some cap => Some cap
  | None => match s with
            | EmptyString => None
            | String _ s' => extract_RepID s'
            end
  end.
Proof.
  unfold head_match.
  destruct s as [|a s]; [reflexivity |].
  change (extract_RepID (String a s)) with
    (match strip_prefix "RepID=" (String a s) with
     | Some (String c rest) =>
         if Ascii.eqb c bar then extract_RepID s
         else Some (take_field (String c rest))
     | _ => extract_RepID s
     end).
  destruct (strip_prefix "RepID=" (String a s)) as [[|c rest]|]; try reflexivity.
  now destruct (Ascii.eqb c bar).
Qed.

Lemma head_match_Some (s cap : string) :
  head_match s = Some cap <-> exists post, is_match s "" cap post.
Proof.
  unfold head_match, is_match. split.
  - destruct (strip_prefix "RepID=" s) as [[|c rest]|] eqn:E; try discriminate.
    destruct (Ascii.eqb c bar) eqn:Ec; [discriminate |].
    intros H.
    assert (Hcap : cap = take_field (String c rest)) by congruence.
    clear H; subst cap.
    apply strip_prefix_Some in E.
    exists (drop_field (String c rest)). repeat split.
    + rewrite <- take_drop_field. exact E.
    + simpl. rewrite Ec. discriminate.
    + apply bar_free_take_field.
    + apply drop_field_head.
  - intros (post & Hs & Hne & Hf & Hp).
    change ("" ++ "RepID=" ++ cap ++ post) with ("RepID=" ++ cap ++ post) in Hs.
    apply strip_prefix_Some in Hs.
    destruct cap as [|c cap]; [congruence |].
    simpl in Hf. apply andb_true_iff in Hf as [Hc Hf].
    apply negb_true_iff in Hc.
    rewrite Hs. simpl. rewrite Hc. do 2 f_equal.
    now apply take_field_app.
Qed.

Lemma is_match_cons (a : ascii) (s pre cap post : string) :
  is_match (String a s) (String a pre) cap post <-> is_match s pre cap post.
Proof.
  unfold is_match; simpl. split; intros (Hs & H); split; try exact H.
  - now inversion Hs.
  - now rewrite Hs.
Qed.

Lemma is_match_inv (s pre cap post : string) :
  is_match s pre cap post ->
  (pre = "" /\ head_match s = Some cap) \/
  (exists a s' pre', s = String a s' /\ pre = String a pre' /\
                     is_match s' pre' cap post).
Proof.
  intros H. destruct pre as [|a pre].
  - left. split; [reflexivity |]. apply head_match_Some. now exists post.
  - right. destruct s as [|b s]; [destruct H as [H _]; discriminate |].
    assert (b = a) by (destruct H as [H _]; now inversion H). subst b.
    exists a, s, pre. do 2 (split; [reflexivity |]).
    exact (proj1 (is_match_cons a s pre cap post) H).
Qed.

(** [extract_RepID] returns the capture of the leftmost match. *)
Lemma extract_RepID_Some (s cap : string) :
  extract_RepID s = Some cap ->
  exists pre post,
    is_match s pre cap post /\
    forall pre' cap' post',
      is_match s pre' cap' post' ->
      (String.length pre <= String.length pre')%nat.
Proof.
  induction s as [|a s IH]; rewrite extract_RepID_eq.
  - discriminate.
  - destruct (head_match (String a s)) as [cap0|] eqn:E.
    + intros H; injection H as ->.
      apply head_match_Some in E as [post Hm].
      exists "", post. split; [exact Hm |]. intros; simpl; lia.
    + intros H. destruct (IH H) as (pre & post & Hm & Hleft).
      exists (String a pre), post.
      split; [exact (proj2 (is_match_cons a s pre cap post) Hm) |].
      intros pre' cap' post' Hm'.
      apply is_match_inv in Hm'
        as [[_ Hh] | (b & s' & pre'' & Hs & -> & Hm')]; [congruence |].
      injection Hs as <- <-. simpl.
      apply Hleft in Hm'. lia.
Qed.

(** It returns null only when the pattern matches nowhere. *)
Lemma extract_RepID_None (s : string) :
  extract_RepID s = None ->
  forall pre cap post, ~ is_match s pre cap post.
Proof.
  induction s as [|a s IH]; rewrite extract_RepID_eq.
  - intros _ pre cap post Hm.
    apply is_match_inv in Hm as [[_ Hh] | (b & s' & pre' & Hs & _)];
      discriminate.
  - destruct (head_match (String a s)) as [cap0|] eqn:E; [discriminate |].
    intros H pre cap post Hm.
    apply is_match_inv in Hm
      as [[_ Hh] | (b & s' & pre' & Hs & -> & Hm)]; [congruence |].
    injection Hs as <- <-. now apply (IH H pre' cap post).
Qed.

Lemma is_match_contains (s pre cap post : string) :
  is_match s pre cap post -> contains "RepID=" s = true.
Proof.
  intros (-> & _). apply contains_append_l.
  destruct (contains "RepID=" ("RepID=" ++ cap ++ post)) eqn:E; [reflexivity |].
  apply (contains_substring "RepID=" "" "RepID=" (cap ++ post)) in E.
  discriminate.
Qed.

(** Without a [RepID=] segment there is nothing to extract. *)
Lemma extract_RepID_no_segment (s : string) :
  contains "RepID=" s = false -> extract_RepID s = None.
Proof.
  intros H. destruct (extract_RepID s) as [cap|] eqn:E; [| reflexivity].
  apply extract_RepID_Some in E as (pre & post & Hm & _).
  apply is_match_contains in Hm. congruence.
Qed.

(** The capture is a non-empty substring of the identifier. *)
Lemma extract_RepID_substring (s cap : string) :
  extract_RepID s = Some cap ->
  cap <> "" /\ exists pre post, s = pre ++ cap ++ post.
Proof.
  intros H. apply extract_RepID_Some in H as (pre & post & Hm & _).
  destruct Hm as (Hs & Hne & _). split; [exact Hne |].
  exists (pre ++ "RepID="), post. now rewrite append_assoc.
Qed.

End Extract.

(** * Columns and row filters *)

Section Tables.

Lemma df_eta (df : DataFrame) :
  mkFrame (columns df) (dtypes df) (rows df) = df.
Proof. now destruct df. Qed.

Lemma forallb_map {A B : Type} (f : B -> bool) (g : A -> B) (l : list A) :
  forallb f (map g l) = forallb (fun a => f (g a)) l.
Proof. induction l as [|a l IH]; simpl; [reflexivity | now rewrite IH]. Qed.

Lemma filter_all {A : Type} (f : A -> bool) (l : list A) :
  (forall a, In a l -> f a = true) -> filter f l = l.
Proof.
  intros H. apply forallb_filter_id, forallb_forall. exact H.
Qed.

(** Looking the names of a duplicate-free header up by name enumerates the
    positions. *)
Lemma map_col_index (names : list string) :
  NoDup names ->
  map (fun c => col_index c names) names = map Some (seq 0 (length names)).
Proof.
  induction 1 as [|n ns Hn Hnd IH]; simpl; [reflexivity |].
  rewrite String.eqb_refl. f_equal.
  rewrite <- seq_shift, map_map.
  transitivity (map (fun c => option_map S (col_index c ns)) ns).
  - apply map_ext_in. intros c Hc.
    destruct (String.eqb c n) eqn:E; [| reflexivity].
    apply String.eqb_eq in E; subst c. contradiction.
  - rewrite <- (map_map (fun c => col_index c ns) (option_map S)), IH.
    now rewrite map_map.
Qed.

Lemma map_nth_seq {A : Type} (d : A) (l : list A) :
  map (fun j => nth j l d) (seq 0 (length l)) = l.
Proof.
  induction l as [|a l IH]; simpl; [reflexivity |].
  f_equal. rewrite <- seq_shift, map_map. exact IH.
Qed.

(** On a well-formed table the intensity columns of a row, read by name,
    are the values of the row. *)
Lemma map_col (df : DataFrame) (r : Row) :
  NoDup (value_cols df) ->
  length (values r) = length (value_cols df) ->
  map (fun c => col df c r) (value_cols df) = values r.
Proof.
  intros Hnd Hlen. unfold col.
  rewrite <- (map_map (fun c => col_index c (value_cols df))
                      (fun o => match o with
                                | Some i => nth i (values r) None
                                | None => None
                                end)).
  rewrite (map_col_index _ Hnd), map_map, <- Hlen.
  apply map_nth_seq.
Qed.

(** Read by name, the dtypes of the intensity columns are the entries of
    [dtypes]. *)
Lemma map_col_dtype (df : DataFrame) :
  NoDup (value_cols df) ->
  map (col_dtype df) (value_cols df) =
  map (fun j => nth j (dtypes df) Int64) (seq 0 (length (value_cols df))).
Proof.
  intros Hnd. unfold col_dtype.
  rewrite <- (map_map (fun c => col_index c (value_cols df))
                      (fun o => match o with
                                | Some i => nth i (dtypes df) Int64
                                | None => Int64
                                end)).
  now rewrite (map_col_index _ Hnd), map_map.
Qed.

Lemma numeric_nth (df : DataFrame) (j : nat) :
  NoDup (value_cols df) ->
  has_string_column df = false ->
  (j < length (value_cols df))%nat ->
  nth j (dtypes df) Int64 = Int64.
Proof.
  intros Hnd Hs Hj. unfold has_string_column in Hs.
  assert (Hall : forall t, In t (map (col_dtype df) (value_cols df)) ->
                           is_Utf8 t = false).
  { intros t Ht. apply in_map_iff in Ht as (c & <- & Hc).
    destruct (is_Utf8 (col_dtype df c)) eqn:E; [| reflexivity].
    assert (existsb (fun c => is_Utf8 (col_dtype df c)) (value_cols df) = true)
      by (apply existsb_exists; now exists c).
    congruence. }
  rewrite (map_col_dtype df Hnd) in Hall.
  destruct (nth j (dtypes df) Int64) eqn:E; [reflexivity |].
  assert (is_Utf8 Utf8 = false); [| discriminate].
  apply Hall. apply in_map_iff. exists j. split; [exact E |].
  apply in_seq. lia.
Qed.

End Tables.

(** * Arithmetic in 64 bits *)

Section Wrap.

Lemma wrap64_range (x : Z) : - 2 ^ 63 <= wrap64 x < 2 ^ 63.
Proof.
  unfold wrap64.
  pose proof (Z.mod_pos_bound (x + 2 ^ 63) (2 ^ 64) ltac:(lia)). lia.
Qed.

Lemma wrap64_small (x : Z) : - 2 ^ 63 <= x < 2 ^ 63 -> wrap64 x = x.
Proof.
  intros H. unfold wrap64. rewrite Z.mod_small; lia.
Qed.

Lemma wrap64_idem (x : Z) : wrap64 (wrap64 x) = wrap64 x.
Proof. apply wrap64_small, wrap64_range. Qed.

Lemma wrap64_add_l (a b : Z) : wrap64 (wrap64 a + b) = wrap64 (a + b).
Proof.
  unfold wrap64.
  replace ((a + 2 ^ 63) mod 2 ^ 64 - 2 ^ 63 + b + 2 ^ 63)
    with ((a + 2 ^ 63) mod 2 ^ 64 + b) by lia.
  rewrite Z.add_mod_idemp_l by lia.
  do 2 f_equal. lia.
Qed.

Lemma wrap64_add_r (a b : Z) : wrap64 (a + wrap64 b) = wrap64 (a + b).
Proof. now rewrite Z.add_comm, wrap64_add_l, Z.add_comm. Qed.

End Wrap.

(** * Stage 2 *)

Section Stage2.

Variable df : DataFrame.

Let cond (c : string) (r : Row) : option bool :=
  kor (is_null (col df c r)) (num_eq (col df c r) 0).

Lemma cond_zero_or_null (c : string) (r : Row) :
  cond c r = Some (zero_or_null (col df c r)).
Proof.
  unfold cond. destruct (col df c r) as [x|]; simpl; [| reflexivity].
  now destruct (Z.eqb x 0).
Qed.

(** Once the mask is set, the loop conjoins the remaining columns. *)
Lemma step2_mask_fold (cs : list string) :
  forall (m : Row -> option bool) (b : Row -> bool),
    (forall r, m r = Some (b r)) ->
    exists m',
      fold_left
        (fun mask c =>
           Some (match mask with
                 | None => cond c
                 | Some m0 => fun r => kand (m0 r) (cond c r)
                 end))
        cs (Some m) = Some m' /\
      forall r,
        m' r = Some (b r && forallb (fun c => zero_or_null (col df c r)) cs).
Proof.
  induction cs as [|c cs IH]; intros m b Hm; simpl.
  - exists m. split; [reflexivity |]. intros r. now rewrite Hm, andb_true_r.
  - destruct (IH (fun r => kand (m r) (cond c r))
                 (fun r => b r && zero_or_null (col df c r))) as (m' & Hf & Hm').
    + intros r. rewrite Hm, cond_zero_or_null.
      now destruct (b r), (zero_or_null (col df c r)).
    + exists m'. split; [exact Hf |].
      intros r. now rewrite Hm', andb_assoc.
Qed.

Lemma step2_mask_Some :
  value_cols df <> [] ->
  exists m,
    step2_mask df = Some m /\
    forall r,
      m r = Some (forallb (fun c => zero_or_null (col df c r)) (value_cols df)).
Proof.
  unfold step2_mask. destruct (value_cols df) as [|c cs]; [congruence |].
  intros _. simpl.
  destruct (step2_mask_fold cs (cond c) (fun r => zero_or_null (col df c r)))
    as (m & Hf & Hm).
  - intros r. apply cond_zero_or_null.
  - exists m. split; [exact Hf | exact Hm].
Qed.

Lemma step2_mask_None : value_cols df = [] -> step2_mask df = None.
Proof. unfold step2_mask. now intros ->. Qed.

(** Without intensity columns [~mask] is applied to [None]. *)
Lemma step2_no_columns : value_cols df = [] -> step2 df = Err TypeError.
Proof. intros H. unfold step2. now rewrite (step2_mask_None H). Qed.

(** A column of strings among the intensity columns stops the filter. *)
Lemma step2_string_column :
  value_cols df <> [] ->
  has_string_column df = true ->
  step2 df = Err ComputeError.
Proof.
  intros H Hs. destruct (step2_mask_Some H) as (m & Hm & _).
  unfold step2. now rewrite Hm, Hs.
Qed.

Lemma step2_columns :
  value_cols df <> [] ->
  has_string_column df = false ->
  step2 df =
  Ok (mkFrame (columns df) (dtypes df)
              (filter (fun r =>
                         negb (forallb (fun c => zero_or_null (col df c r))
                                       (value_cols df)))
                      (rows df))).
Proof.
  intros H Hs. destruct (step2_mask_Some H) as (m & Hm & Hr).
  unfold step2. rewrite Hm, Hs. unfold df_filter. do 2 f_equal.
  apply filter_ext. intros r. unfold keeps. rewrite Hr. simpl.
  now destruct (forallb _ _).
Qed.

Lemma step2_wf :
  wf df ->
  value_cols df <> [] ->
  has_string_column df = false ->
  step2 df =
  Ok (mkFrame (columns df) (dtypes df)
              (filter (fun r => negb (forallb zero_or_null (values r)))
                      (rows df))).
Proof.
  intros (_ & Hnd & Hlen) H Hs. rewrite (step2_columns H Hs). do 2 f_equal.
  apply filter_ext_in. intros r Hr. f_equal.
  rewrite Forall_forall in Hlen.
  rewrite <- (forallb_map zero_or_null (fun c => col df c r)).
  now rewrite (map_col df r Hnd (Hlen r Hr)).
Qed.

Lemma step2_Ok_columns (out : DataFrame) :
  step2 df = Ok out -> value_cols df <> [].
Proof.
  intros H Hn. rewrite (step2_no_columns Hn) in H. discriminate.
Qed.

Lemma step2_Ok_numeric (out : DataFrame) :
  step2 df = Ok out -> has_string_column df = false.
Proof.
  intros H. pose proof (step2_Ok_columns out H) as Hvc.
  destruct (has_string_column df) eqn:E; [| reflexivity].
  rewrite (step2_string_column Hvc E) in H. discriminate.
Qed.

End Stage2.

(** * Stage 7: grouping *)

Section Grouping.

Lemma key_eqb_eq (a b : option string) : key_eqb a b = true <-> a = b.
Proof.
  destruct a as [x|], b as [y|]; simpl; try (split; congruence).
  rewrite String.eqb_eq. split; congruence.
Qed.

Lemma key_eqb_refl (a : option string) : key_eqb a a = true.
Proof. now apply key_eqb_eq. Qed.

Lemma key_eqb_neq (a b : option string) : key_eqb a b = false <-> a <> b.
Proof.
  rewrite <- key_eqb_eq. destruct (key_eqb a b); split; congruence.
Qed.

Lemma key_dec (a b : option string) : {a = b} + {a <> b}.
Proof.
  destruct (key_eqb a b) eqn:E; [left | right].
  - now apply key_eqb_eq.
  - now apply key_eqb_neq.
Qed.

Lemma In_first_occ (k : option string) (ks : list (option string)) :
  In k (first_occ ks) <-> In k ks.
Proof.
  induction ks as [|a ks IH]; simpl; [tauto |].
  rewrite filter_In, IH, negb_true_iff, key_eqb_neq.
  destruct (key_dec a k); [subst; tauto |].
  split; [tauto |]. intros [H | H]; [tauto | right; split; congruence].
Qed.

Lemma NoDup_first_occ (ks : list (option string)) : NoDup (first_occ ks).
Proof.
  induction ks as [|a ks IH]; simpl; constructor.
  - rewrite filter_In, negb_true_iff, key_eqb_neq. tauto.
  - now apply NoDup_filter.
Qed.

Lemma first_occ_NoDup (ks : list (option string)) :
  NoDup ks -> first_occ ks = ks.
Proof.
  induction 1 as [|a ks Ha Hnd IH]; simpl; [reflexivity |].
  rewrite IH. f_equal. apply filter_all.
  intros k Hk. apply negb_true_iff, key_eqb_neq. congruence.
Qed.

Lemma first_occ_snoc_new (k : option string) (ks : list (option string)) :
  ~ In k ks -> first_occ (ks ++ [k]) = (first_occ ks ++ [k])%list.
Proof.
  induction ks as [|a ks IH]; simpl; intros H; [reflexivity |].
  rewrite IH by tauto. rewrite filter_app. simpl.
  assert (E : key_eqb k a = false) by (apply key_eqb_neq; intuition congruence).
  now rewrite E.
Qed.

Lemma first_occ_snoc_old (k : option string) (ks : list (option string)) :
  In k ks -> first_occ (ks ++ [k]) = first_occ ks.
Proof.
  induction ks as [|a ks IH]; simpl; intros H; [contradiction |].
  destruct (in_dec key_dec k ks) as [Hin | Hout].
  - now rewrite IH.
  - destruct H as [-> | H]; [| contradiction].
    rewrite (first_occ_snoc_new k ks Hout), filter_app. simpl.
    rewrite key_eqb_refl. simpl. now rewrite app_nil_r.
Qed.

Lemma members_snoc (k : option string) (rs : list Row) (r : Row) :
  members k (rs ++ [r]) =
  (members k rs ++ if key_eqb (protein r) k then [r] else [])%list.
Proof. unfold members. now rewrite filter_app. Qed.

Lemma members_none (k : option string) (rs : list Row) :
  ~ In k (map protein rs) -> members k rs = [].
Proof.
  intros H. induction rs as [|r rs IH]; simpl in *; [reflexivity |].
  assert (E : key_eqb (protein r) k = false) by (apply key_eqb_neq; tauto).
  rewrite E. apply IH. tauto.
Qed.

Lemma group_by_snoc (rs : list Row) (r : Row) :
  group_by (rs ++ [r]) = insert_group r (group_by rs).
Proof. unfold group_by. now rewrite fold_left_app. Qed.

(** A row whose key has a group joins it, at the end. *)
Lemma insert_group_old (r : Row) (G : option string -> list Row)
      (ks : list (option string)) :
  NoDup ks ->
  In (protein r) ks ->
  insert_group r (map (fun k => (k, G k)) ks) =
  map (fun k => (k, (G k ++ if key_eqb (protein r) k then [r] else [])%list)) ks.
Proof.
  induction 1 as [|a ks Ha Hnd IH]; simpl; intros Hin; [contradiction |].
  destruct (key_eqb (protein r) a) eqn:E.
  - apply key_eqb_eq in E. f_equal.
    apply map_ext_in. intros k Hk.
    assert (E' : key_eqb (protein r) k = false)
      by (apply key_eqb_neq; congruence).
    now rewrite E', app_nil_r.
  - rewrite app_nil_r. f_equal. apply IH.
    apply key_eqb_neq in E. destruct Hin; congruence.
Qed.

(** A row with a new key opens a group behind the others. *)
Lemma insert_group_new (r : Row) (G : option string -> list Row)
      (ks : list (option string)) :
  ~ In (protein r) ks ->
  insert_group r (map (fun k => (k, G k)) ks) =
  (map (fun k => (k, G k)) ks ++ [(protein r, [r])])%list.
Proof.
  induction ks as [|a ks IH]; simpl; intros Hout; [reflexivity |].
  assert (E : key_eqb (protein r) a = false)
    by (apply key_eqb_neq; intuition congruence).
  rewrite E, IH by tauto. reflexivity.
Qed.

(** The groups are the distinct keys in first-occurrence order, each with
    its rows in table order. *)
Lemma group_by_spec (rs : list Row) :
  group_by rs =
  map (fun k => (k, members k rs)) (first_occ (map protein rs)).
Proof.
  induction rs as [|r rs IH] using rev_ind; [reflexivity |].
  rewrite group_by_snoc, IH, map_app. simpl.
  destruct (in_dec key_dec (protein r) (map protein rs)) as [Hin | Hout].
  - rewrite (first_occ_snoc_old _ _ Hin).
    rewrite insert_group_old.
    + apply map_ext. intros k. now rewrite members_snoc.
    + apply NoDup_first_occ.
    + now apply In_first_occ.
  - rewrite (first_occ_snoc_new _ _ Hout).
    rewrite insert_group_new by now rewrite In_first_occ.
    rewrite map_app. simpl. f_equal.
    + apply map_ext_in. intros k Hk. rewrite members_snoc.
      assert (E : key_eqb (protein r) k = false).
      { apply key_eqb_neq. intros <-.
        apply Hout, (proj1 (In_first_occ _ _) Hk). }
      now rewrite E, app_nil_r.
    + rewrite members_snoc, key_eqb_refl, (members_none _ _ Hout).
      reflexivity.
Qed.

End Grouping.

(** * Stage 7: summation *)

Section Stage7.

Variable df : DataFrame.

(** Wrapping at every addition gives the sum, wrapped once. *)
Lemma fold_left_sum (c : string) (g : list Row) :
  forall a,
    wrap64 a = a ->
    fold_left (fun acc r => match col df c r with
                            | Some v => wrap64 (acc + v)
                            | None => acc
                            end) g a =
    wrap64 (a + fold_right Z.add 0 (map (fun r => null_as_zero (col df c r)) g)).
Proof.
  induction g as [|r g IH]; intros a Ha; simpl.
  - now rewrite Z.add_0_r.
  - destruct (col df c r) as [v|]; simpl.
    + rewrite IH by apply wrap64_idem.
      rewrite wrap64_add_l. f_equal. lia.
    + now rewrite (IH a Ha).
Qed.

Lemma sum_cols_total (g : list Row) :
  NoDup (value_cols df) ->
  map (fun c => sum_col df c g) (value_cols df) =
  group_total (dtypes df) (length (value_cols df)) g.
Proof.
  intros Hnd.
  pose (H := fun o : option nat =>
               match match o with
                     | Some i => nth i (dtypes df) Int64
                     | None => Int64
                     end with
               | Int64 =>
                   Some (wrap64
                           (fold_right Z.add 0
                              (map (fun r => null_as_zero
                                               match o with
                                               | Some i => nth i (values r) None
                                               | None => None
                                               end) g)))
               | Utf8 => None
               end).
  transitivity (map (fun c => H (col_index c (value_cols df))) (value_cols df)).
  - apply map_ext. intros c. unfold sum_col, col_dtype, H.
    destruct (match col_index c (value_cols df) with
              | Some i => nth i (dtypes df) Int64
              | None => Int64
              end); [| reflexivity].
    now rewrite fold_left_sum.
  - rewrite <- (map_map (fun c => col_index c (value_cols df)) H).
    rewrite (map_col_index _ Hnd), map_map. reflexivity.
Qed.

Lemma step7_spec :
  NoDup (value_cols df) ->
  step7 df =
  Ok (mkFrame ("protein" :: value_cols df) (dtypes df)
              (collapse (dtypes df) (length (value_cols df)) (rows df))).
Proof.
  intros Hnd. unfold step7, collapse.
  rewrite group_by_spec, map_map. simpl. do 2 f_equal.
  apply map_ext. intros k. f_equal. now apply sum_cols_total.
Qed.

Lemma step7_wf :
  wf df ->
  step7 df =
  Ok (mkFrame (columns df) (dtypes df)
              (collapse (dtypes df) (length (value_cols df)) (rows df))).
Proof.
  intros (Hc & Hnd & _). rewrite (step7_spec Hnd). now rewrite <- Hc.
Qed.

End Stage7.

Section Collapse.

Variable dts : list dtype.

Lemma nth_group_total (n j : nat) (g : list Row) :
  (j < n)%nat ->
  nth j (group_total dts n g) None =
  match nth j dts Int64 with
  | Int64 => Some (wrap64 (sum_at j g))
  | Utf8 => None
  end.
Proof.
  intros Hj. unfold group_total.
  set (f := fun j => match nth j dts Int64 with
                     | Int64 => Some (wrap64 (sum_at j g))
                     | Utf8 => None
                     end).
  rewrite (nth_indep _ None (f 0%nat)) by now rewrite length_map, length_seq.
  rewrite (map_nth f (seq 0 n) 0%nat j). now rewrite seq_nth.
Qed.

Lemma collapse_values (n : nat) (rs : list Row) (r : Row) :
  In r (collapse dts n rs) ->
  length (values r) = n /\ settled dts r.
Proof.
  unfold collapse. rewrite in_map_iff. intros (k & <- & _). cbn [values].
  assert (Hlen : length (group_total dts n (members k rs)) = n)
    by (unfold group_total; now rewrite length_map, length_seq).
  split; [exact Hlen |].
  intros j Hj. cbn [values] in *. rewrite Hlen in Hj.
  rewrite (nth_group_total n j _ Hj).
  destruct (nth j dts Int64); [| reflexivity].
  eexists. split; [reflexivity | apply wrap64_idem].
Qed.

Lemma group_total_single (r : Row) :
  settled dts r -> group_total dts (length (values r)) [r] = values r.
Proof.
  intros Hr. unfold group_total, sum_at. simpl.
  transitivity (map (fun j => nth j (values r) None)
                    (seq 0 (length (values r)))); [| apply map_nth_seq].
  apply map_ext_in. intros j Hj. apply in_seq in Hj.
  specialize (Hr j ltac:(lia)).
  destruct (nth j dts Int64).
  - destruct Hr as (v & -> & Hv). simpl. now rewrite Z.add_0_r, Hv.
  - now rewrite Hr.
Qed.

(** Where every column holds whole numbers a settled row has no null. *)
Lemma settled_no_null (r : Row) :
  (forall j, (j < length (values r))%nat -> nth j dts Int64 = Int64) ->
  settled dts r -> no_null_value r.
Proof.
  intros Hnum Hr v Hv.
  destruct (In_nth _ _ None Hv) as (j & Hj & <-).
  specialize (Hr j Hj). rewrite (Hnum j Hj) in Hr.
  destruct Hr as (x & -> & _). discriminate.
Qed.

Lemma members_unique (rs : list Row) (r : Row) :
  NoDup (map protein rs) -> In r rs -> members (protein r) rs = [r].
Proof.
  induction rs as [|a rs IH]; simpl; intros Hnd Hin; [contradiction |].
  inversion Hnd as [|x l Ha Hnd']; subst.
  destruct Hin as [-> | Hin].
  - rewrite key_eqb_refl. f_equal. now apply members_none.
  - assert (E : key_eqb (protein a) (protein r) = false).
    { apply key_eqb_neq. intros E. apply Ha. rewrite E. now apply in_map. }
    rewrite E. now apply IH.
Qed.

(** A table of settled rows without duplicate identifiers is unchanged. *)
Lemma collapse_id (n : nat) (rs : list Row) :
  NoDup (map protein rs) ->
  (forall r, In r rs -> length (values r) = n /\ settled dts r) ->
  collapse dts n rs = rs.
Proof.
  intros Hnd Hr. unfold collapse.
  rewrite (first_occ_NoDup _ Hnd), map_map.
  rewrite <- (map_id rs) at 2.
  apply map_ext_in. intros r Hin.
  destruct (Hr r Hin) as [Hlen Hs].
  rewrite (members_unique rs r Hnd Hin), <- Hlen, (group_total_single r Hs).
  now destruct r.
Qed.

End Collapse.

(** * The stages, one by one *)

Section Stages.

Lemma Ok_inj {A : Type} (a b : A) : Ok a = Ok b -> a = b.
Proof. congruence. Qed.

Lemma bind_Ok {A B : Type} (a : A) (f : A -> result B) : bind (Ok a) f = f a.
Proof. reflexivity. Qed.

Lemma bind_Ok_inv {A B : Type} (m : result A) (f : A -> result B) (b : B) :
  bind m f = Ok b -> exists a, m = Ok a /\ f a = Ok b.
Proof. destruct m as [a|e]; simpl; [now exists a | discriminate]. Qed.

Lemma rows_df_filter (pred : Row -> option bool) (df : DataFrame) (r : Row) :
  In r (rows (df_filter pred df)) <-> In r (rows df) /\ pred r = Some true.
Proof.
  unfold df_filter, keeps; simpl. rewrite filter_In.
  destruct (pred r) as [[|]|]; intuition congruence.
Qed.

Lemma df_filter_id (pred : Row -> option bool) (df : DataFrame) :
  (forall r, In r (rows df) -> pred r = Some true) -> df_filter pred df = df.
Proof.
  intros H. unfold df_filter. rewrite filter_all; [apply df_eta |].
  intros r Hr. unfold keeps. now rewrite (H r Hr).
Qed.

Lemma step2_is_filter (df out : DataFrame) :
  step2 df = Ok out -> exists pred, out = df_filter pred df.
Proof.
  unfold step2. destruct (step2_mask df) as [m|]; [| discriminate].
  destruct (has_string_column df); [discriminate |].
  intros H. apply Ok_inj in H. subst out. now eexists.
Qed.

Lemma step1_ids (df : DataFrame) (r : Row) :
  In r (rows (df_filter
                (fun r => kand (is_not_null (protein r)) (str_ne (protein r) ""))
                df)) ->
  exists s, protein r = Some s /\ s <> "".
Proof.
  intros H. apply rows_df_filter in H as [_ H].
  destruct (protein r) as [s|]; [| discriminate].
  exists s. split; [reflexivity |]. intros ->. discriminate.
Qed.

(** A filter [~expr] over the identifier keeps the rows where [expr] is
    false, and no row with a null identifier. *)
Lemma negated_filter_ids (f : string -> bool) (df : DataFrame) (r : Row) :
  In r (rows (df_filter (fun r => knot (option_map f (protein r))) df)) ->
  exists s, protein r = Some s /\ f s = false.
Proof.
  intros H. apply rows_df_filter in H as [_ H].
  destruct (protein r) as [s|]; [| discriminate].
  exists s. split; [reflexivity |]. simpl in H.
  destruct (f s); [discriminate | reflexivity].
Qed.

Lemma negated_filter_id (f : string -> bool) (df : DataFrame) :
  (forall r, In r (rows df) -> exists s, protein r = Some s /\ f s = false) ->
  df_filter (fun r => knot (option_map f (protein r))) df = df.
Proof.
  intros H. apply df_filter_id. intros r Hr.
  destruct (H r Hr) as (s & -> & E). simpl. now rewrite E.
Qed.

Lemma step5_protein_k77 (s : string) :
  starts_with "k77" s = true -> step5_protein (Some s) = extract_RepID s.
Proof.
  intros H. unfold step5_protein.
  change (option_map (starts_with "k77") (Some s))
    with (Some (starts_with "k77" s)).
  now rewrite H.
Qed.

Lemma step5_protein_other (s : string) :
  starts_with "k77" s = false -> step5_protein (Some s) = Some s.
Proof.
  intros H. unfold step5_protein.
  change (option_map (starts_with "k77") (Some s))
    with (Some (starts_with "k77" s)).
  now rewrite H.
Qed.

Lemma clean_text_substring (pre s post : string) :
  clean_text (pre ++ s ++ post) -> s <> "" -> clean_text s.
Proof.
  intros (_ & Hc & Hu) Hne. repeat split; [exact Hne | |].
  - rewrite !to_lowercase_append in Hc.
    now apply contains_substring in Hc.
  - now apply contains_substring in Hu.
Qed.

Lemma step5_protein_passed (p : option string) :
  passed4 p -> step5_protein p = None \/ passed4 (step5_protein p).
Proof.
  intros (s & -> & Hs).
  destruct (starts_with "k77" s) eqn:E.
  - rewrite (step5_protein_k77 s E).
    destruct (extract_RepID s) as [cap|] eqn:Ex; [right | now left].
    apply extract_RepID_substring in Ex as (Hne & pre & post & ->).
    exists cap. split; [reflexivity |].
    now apply (clean_text_substring pre cap post).
  - rewrite (step5_protein_other s E). right. now exists s.
Qed.

Lemma filter_idem {A : Type} (f : A -> bool) (l : list A) :
  filter f (filter f l) = filter f l.
Proof.
  apply filter_all. intros a Ha. now apply filter_In in Ha.
Qed.

Lemma value_cols_step7 (df out : DataFrame) :
  step7 df = Ok out -> value_cols out = value_cols df.
Proof.
  unfold step7. intros H; injection H as <-.
  unfold value_cols at 1. simpl. apply filter_idem.
Qed.

Lemma sub_table_filter (pred : Row -> option bool) (df : DataFrame) :
  sub_table df (df_filter pred df).
Proof.
  split; [reflexivity |]. split; [reflexivity |].
  intros r Hr. now apply rows_df_filter in Hr.
Qed.

Lemma sub_table_trans (d d' d'' : DataFrame) :
  sub_table d d' -> sub_table d' d'' -> sub_table d d''.
Proof.
  intros (Hc & Ht & Hr) (Hc' & Ht' & Hr').
  split; [congruence |]. split; [congruence |].
  intros r Hin. apply Hr, Hr', Hin.
Qed.

Lemma sub_table_wf (d d' : DataFrame) : wf d -> sub_table d d' -> wf d'.
Proof.
  intros (Hc & Hnd & Hlen) (Hcols & _ & Hrows).
  unfold wf, value_cols in *. rewrite Hcols. repeat split; try assumption.
  rewrite Forall_forall in *. intros r Hr. apply Hlen, Hrows, Hr.
Qed.

Lemma sub_table_ids (P : option string -> Prop) (d d' : DataFrame) :
  ids P d -> sub_table d d' -> ids P d'.
Proof. intros H (_ & _ & Hrows) r Hr. apply H, Hrows, Hr. Qed.

Lemma sub_table_value_cols (d d' : DataFrame) :
  sub_table d d' -> value_cols d' = value_cols d.
Proof. intros (Hc & _). unfold value_cols. now rewrite Hc. Qed.

Lemma same_schema_numeric (d d' : DataFrame) :
  columns d' = columns d -> dtypes d' = dtypes d ->
  has_string_column d' = has_string_column d.
Proof.
  intros Hc Ht. unfold has_string_column, col_dtype, value_cols.
  now rewrite Hc, Ht.
Qed.

Lemma sub_table_numeric (d d' : DataFrame) :
  sub_table d d' -> has_string_column d' = has_string_column d.
Proof. intros (Hc & Ht & _). now apply same_schema_numeric. Qed.

Lemma step1_post (df d : DataFrame) :
  step1 df = Ok d ->
  sub_table df d /\ ids (fun p => exists s, p = Some s /\ s <> "") d.
Proof.
  unfold step1. intros H. apply Ok_inj in H. subst d.
  split; [apply sub_table_filter |]. intros r Hr. now apply step1_ids in Hr.
Qed.

Lemma step2_post (df d : DataFrame) :
  step2 df = Ok d -> sub_table df d /\ value_cols df <> [].
Proof.
  intros H. split; [| exact (step2_Ok_columns _ _ H)].
  apply step2_is_filter in H as [pred ->]. apply sub_table_filter.
Qed.

Lemma step3_post (df d : DataFrame) :
  step3 df = Ok d ->
  sub_table df d /\
  ids (fun p => exists s, p = Some s /\
                          contains "contam" (to_lowercase s) = false) d.
Proof.
  unfold step3. intros H. apply Ok_inj in H. subst d.
  split; [apply sub_table_filter |]. intros r Hr.
  exact (negated_filter_ids _ _ _ Hr).
Qed.

Lemma step4_post (df d : DataFrame) :
  step4 df = Ok d ->
  sub_table df d /\
  ids (fun p => exists s, p = Some s /\ contains "RepID=unknown" s = false) d.
Proof.
  unfold step4. intros H. apply Ok_inj in H. subst d.
  split; [apply sub_table_filter |]. intros r Hr.
  exact (negated_filter_ids _ _ _ Hr).
Qed.

Lemma step5_post (df d : DataFrame) :
  step5 df = Ok d ->
  columns d = columns df /\
  rows d = map (fun r => mkRow (step5_protein (protein r)) (values r)) (rows df).
Proof.
  unfold step5. intros H. apply Ok_inj in H. now subst d.
Qed.

Lemma step5_dtypes (df d : DataFrame) :
  step5 df = Ok d -> dtypes d = dtypes df.
Proof. unfold step5. intros H. apply Ok_inj in H. now subst d. Qed.

Lemma step5_wf (df d : DataFrame) : step5 df = Ok d -> wf df -> wf d.
Proof.
  intros H (Hc & Hnd & Hlen). apply step5_post in H as (Hcols & Hrows).
  unfold wf, value_cols in *. rewrite Hcols, Hrows.
  repeat split; try assumption.
  rewrite Forall_forall in *. intros r Hr.
  apply in_map_iff in Hr as (r0 & <- & Hr0). simpl. now apply Hlen.
Qed.

Lemma step6_post (df d : DataFrame) :
  step6 df = Ok d ->
  sub_table df d /\
  ids (fun p => exists s, p = Some s /\ contains_any blacklist s = false) d.
Proof.
  unfold step6. intros H. apply Ok_inj in H. subst d.
  split; [apply sub_table_filter |]. intros r Hr.
  exact (negated_filter_ids _ _ _ Hr).
Qed.

Lemma step7_post (df d : DataFrame) :
  wf df ->
  step7 df = Ok d ->
  columns d = columns df /\
  rows d = collapse (dtypes df) (length (value_cols df)) (rows df).
Proof.
  intros Hwf H. rewrite (step7_wf _ Hwf) in H. apply Ok_inj in H. now subst d.
Qed.

Lemma step7_dtypes (df d : DataFrame) :
  step7 df = Ok d -> dtypes d = dtypes df.
Proof. unfold step7. intros H. apply Ok_inj in H. now subst d. Qed.

Lemma step7_keys (df d : DataFrame) :
  step7 df = Ok d ->
  map protein (rows d) = first_occ (map protein (rows df)).
Proof.
  unfold step7. intros H. apply Ok_inj in H. subst d. simpl.
  rewrite group_by_spec, !map_map. simpl. apply map_id.
Qed.

End Stages.

(** * The pipeline *)

Section Pipeline.

Lemma run_filters_inv (df out : DataFrame) :
  run_filters df = Ok out ->
  exists d1 d2 d3 d4 d5 d6,
    step1 df = Ok d1 /\ step2 d1 = Ok d2 /\ step3 d2 = Ok d3 /\
    step4 d3 = Ok d4 /\ step5 d4 = Ok d5 /\ step6 d5 = Ok d6 /\
    step7 d6 = Ok out.
Proof.
  change (run_filters df) with
    (bind (bind (bind (bind (bind (bind (step1 df) step2) step3) step4)
                      step5) step6) step7).
  intros H.
  apply bind_Ok_inv in H as (d6 & H & H7).
  apply bind_Ok_inv in H as (d5 & H & H6).
  apply bind_Ok_inv in H as (d4 & H & H5).
  apply bind_Ok_inv in H as (d3 & H & H4).
  apply bind_Ok_inv in H as (d2 & H & H3).
  apply bind_Ok_inv in H as (d1 & H1 & H2).
  now exists d1, d2, d3, d4, d5, d6.
Qed.

Lemma run_filters_chain (df d1 d2 d3 d4 d5 d6 out : DataFrame) :
  step1 df = Ok d1 -> step2 d1 = Ok d2 -> step3 d2 = Ok d3 ->
  step4 d3 = Ok d4 -> step5 d4 = Ok d5 -> step6 d5 = Ok d6 ->
  step7 d6 = Ok out ->
  run_filters df = Ok out.
Proof.
  intros H1 H2 H3 H4 H5 H6 H7.
  change (run_filters df) with
    (bind (bind (bind (bind (bind (bind (step1 df) step2) step3) step4)
                      step5) step6) step7).
  rewrite H1, bind_Ok, H2, bind_Ok, H3, bind_Ok, H4, bind_Ok, H5, bind_Ok, H6.
  exact H7.
Qed.

(** No stage touches the intensity columns of the header. *)
Lemma run_filters_value_cols (df out : DataFrame) :
  run_filters df = Ok out -> value_cols out = value_cols df.
Proof.
  intros H.
  apply run_filters_inv in H
    as (d1 & d2 & d3 & d4 & d5 & d6 & H1 & H2 & H3 & H4 & H5 & H6 & H7).
  apply value_cols_step7 in H7. rewrite H7.
  apply step1_post in H1 as [H1 _]. apply step2_post in H2 as [H2 _].
  apply step3_post in H3 as [H3 _]. apply step4_post in H4 as [H4 _].
  apply step5_post in H5 as [H5 _]. apply step6_post in H6 as [H6 _].
  rewrite (sub_table_value_cols _ _ H6).
  unfold value_cols at 1. rewrite H5. fold (value_cols d4).
  rewrite (sub_table_value_cols _ _ H4), (sub_table_value_cols _ _ H3).
  now rewrite (sub_table_value_cols _ _ H2), (sub_table_value_cols _ _ H1).
Qed.

(** The schema through a run. *)
Lemma run_filters_schema (df out : DataFrame) :
  run_filters df = Ok out ->
  dtypes out = dtypes df /\ has_string_column df = false.
Proof.
  intros H.
  apply run_filters_inv in H
    as (d1 & d2 & d3 & d4 & d5 & d6 & H1 & H2 & H3 & H4 & H5 & H6 & H7).
  pose proof (step2_Ok_numeric _ _ H2) as Hnum.
  apply step7_dtypes in H7. apply step5_dtypes in H5.
  apply step1_post in H1 as [(C1 & T1 & _) _].
  apply step2_post in H2 as [(_ & T2 & _) _].
  apply step3_post in H3 as [(_ & T3 & _) _].
  apply step4_post in H4 as [(_ & T4 & _) _].
  apply step6_post in H6 as [(_ & T6 & _) _].
  split; [congruence |].
  now rewrite <- (same_schema_numeric df d1 C1 T1).
Qed.

(** The table that Stage 7 receives in a run. *)
Lemma run_filters_stage6 (df out : DataFrame) :
  wf df ->
  run_filters df = Ok out ->
  exists d6,
    bind (bind (bind (bind (bind (step1 df) step2) step3) step4) step5)
         step6 = Ok d6 /\
    step7 d6 = Ok out /\
    wf d6 /\ columns d6 = columns df /\ dtypes d6 = dtypes df.
Proof.
  intros Hwf H.
  apply run_filters_inv in H
    as (d1 & d2 & d3 & d4 & d5 & d6 & H1 & H2 & H3 & H4 & H5 & H6 & H7).
  exists d6. split.
  { rewrite H1, bind_Ok, H2, bind_Ok, H3, bind_Ok, H4, bind_Ok, H5.
    exact H6. }
  split; [exact H7 |].
  apply step1_post in H1 as [S1 _]. apply step2_post in H2 as [S2 _].
  apply step3_post in H3 as [S3 _]. apply step4_post in H4 as [S4 _].
  apply step6_post in H6 as [S6 _].
  pose proof (sub_table_trans _ _ _ (sub_table_trans _ _ _
                (sub_table_trans _ _ _ S1 S2) S3) S4) as S14.
  pose proof (sub_table_wf _ _ Hwf S14) as Hwf4.
  pose proof (step5_wf _ _ H5 Hwf4) as Hwf5.
  pose proof (step5_dtypes _ _ H5) as T5.
  apply step5_post in H5 as [C5 _].
  split; [exact (sub_table_wf _ _ Hwf5 S6) |].
  destruct S6 as (C6 & T6 & _), S14 as (C14 & T14 & _).
  split; congruence.
Qed.

(** What a successful run guarantees about its output. *)
Lemma run_filters_post (df out : DataFrame) :
  wf df ->
  run_filters df = Ok out ->
  wf out /\ columns out = columns df /\ value_cols out <> [] /\
  ids clean_id out /\ NoDup (map protein (rows out)) /\
  (forall r, In r (rows out) -> no_null_value r) /\
  has_string_column out = false /\
  (forall r, In r (rows out) -> settled (dtypes out) r).
Proof.
  intros Hwf H.
  pose proof (run_filters_value_cols _ _ H) as Hvals.
  destruct (run_filters_schema _ _ H) as [Hdts Hnum].
  apply run_filters_inv in H
    as (d1 & d2 & d3 & d4 & d5 & d6 & H1 & H2 & H3 & H4 & H5 & H6 & H7).
  apply step1_post in H1 as [S1 I1]. apply step2_post in H2 as [S2 Hvc].
  apply step3_post in H3 as [S3 I3]. apply step4_post in H4 as [S4 I4].
  apply step6_post in H6 as [S6 I6].
  pose proof (sub_table_trans _ _ _ (sub_table_trans _ _ _
                (sub_table_trans _ _ _ S1 S2) S3) S4) as S14.
  assert (Hwf4 : wf d4) by exact (sub_table_wf _ _ Hwf S14).
  assert (Hid4 : ids passed4 d4).
  { intros r Hr.
    destruct (I4 r Hr) as (s & Hs & Hu).
    destruct (sub_table_ids _ _ _ I3 S4 r Hr) as (s' & Hs' & Hc).
    assert (I1' : ids (fun p => exists s, p = Some s /\ s <> "") d4).
    { eapply sub_table_ids; [| exact S4]. eapply sub_table_ids; [| exact S3].
      eapply sub_table_ids; [| exact S2]. exact I1. }
    destruct (I1' r Hr) as (s'' & Hs'' & Hne).
    exists s. split; [exact Hs |].
    assert (s' = s) by congruence. assert (s'' = s) by congruence. subst.
    now repeat split. }
  assert (Hwf6 : wf d6).
  { eapply sub_table_wf; [| exact S6]. exact (step5_wf _ _ H5 Hwf4). }
  pose proof (step5_dtypes _ _ H5) as T5.
  apply step5_post in H5 as [C5 R5].
  assert (Hid6 : ids clean_id d6).
  { intros r Hr.
    destruct (I6 r Hr) as (s & Hs & Hb).
    destruct S6 as (_ & _ & S6). apply S6 in Hr. rewrite R5 in Hr.
    apply in_map_iff in Hr as (r0 & <- & Hr0).
    simpl in Hs. exists s. split; [exact Hs |]. split; [| exact Hb].
    destruct (step5_protein_passed _ (Hid4 r0 Hr0)) as [E | (s' & E & Hc)];
      rewrite E in Hs; [discriminate |].
    assert (s' = s) by congruence. now subst. }
  pose proof (step7_keys _ _ H7) as Hkeys.
  pose proof (step7_dtypes _ _ H7) as T7.
  apply (step7_post _ _ Hwf6) in H7 as [C7 R7].
  assert (Hcols : columns out = columns df).
  { rewrite C7. destruct S6 as [-> _]. rewrite C5. now destruct S14 as [-> _]. }
  assert (Hv6 : value_cols d6 = value_cols df).
  { rewrite (sub_table_value_cols _ _ S6).
    unfold value_cols at 1. rewrite C5. fold (value_cols d4).
    exact (sub_table_value_cols _ _ S14). }
  assert (Hwfout : wf out).
  { destruct Hwf as (Hc & Hnd & _).
    unfold wf. rewrite Hvals, Hcols. repeat split; try assumption.
    apply Forall_forall. intros r Hr. rewrite R7 in Hr.
    apply collapse_values in Hr as [Hr _]. now rewrite Hr, Hv6. }
  assert (Hnumout : has_string_column out = false).
  { now rewrite (same_schema_numeric df out Hcols Hdts). }
  assert (Hset : forall r, In r (rows out) -> settled (dtypes out) r).
  { intros r Hr. rewrite R7 in Hr.
    apply collapse_values in Hr as [_ Hr]. now rewrite T7. }
  split; [exact Hwfout |]. split; [exact Hcols |].
  split.
  { rewrite Hvals. now rewrite <- (sub_table_value_cols _ _ S1). }
  split.
  { intros r Hr.
    assert (Hk : In (protein r) (map protein (rows out))) by now apply in_map.
    rewrite Hkeys in Hk.
    apply In_first_occ, in_map_iff in Hk as (r0 & <- & Hr0).
    now apply Hid6. }
  split.
  { rewrite Hkeys. apply NoDup_first_occ. }
  split; [| split; [exact Hnumout | exact Hset]].
  intros r Hr. apply (settled_no_null (dtypes out)); [| now apply Hset].
  intros j Hj. destruct Hwfout as (_ & Hnd & Hlen).
  rewrite Forall_forall in Hlen. rewrite (Hlen r Hr) in Hj.
  now apply numeric_nth.
Qed.

End Pipeline.

(** * A second run *)

Section SecondRun.

Variable out : DataFrame.
Hypothesis Hwf : wf out.
Hypothesis Hcols : value_cols out <> [].
Hypothesis Hids : ids clean_id out.
Hypothesis Hnodup : NoDup (map protein (rows out)).
Hypothesis Hnum : has_string_column out = false.
Hypothesis Hsettled : forall r, In r (rows out) -> settled (dtypes out) r.
Hypothesis Hk77 :
  forall r s, In r (rows out) -> protein r = Some s ->
              starts_with "k77" s = false.
Hypothesis Hnonzero :
  forall r, In r (rows out) -> forallb zero_or_null (values r) = false.

Lemma step1_fixed : step1 out = Ok out.
Proof.
  unfold step1. f_equal. apply df_filter_id. intros r Hr.
  destruct (Hids r Hr) as (s & E & (Hne & _) & _). rewrite E. simpl.
  destruct (String.eqb s "") eqn:Es; [| reflexivity].
  apply String.eqb_eq in Es. contradiction.
Qed.

Lemma step2_fixed : step2 out = Ok out.
Proof.
  rewrite (step2_wf out Hwf Hcols Hnum). f_equal.
  rewrite filter_all; [apply df_eta |].
  intros r Hr. now rewrite (Hnonzero r Hr).
Qed.

Lemma step3_fixed : step3 out = Ok out.
Proof.
  unfold step3. f_equal. apply negated_filter_id. intros r Hr.
  destruct (Hids r Hr) as (s & E & (_ & Hc & _) & _). now exists s.
Qed.

Lemma step4_fixed : step4 out = Ok out.
Proof.
  unfold step4. f_equal. apply negated_filter_id. intros r Hr.
  destruct (Hids r Hr) as (s & E & (_ & _ & Hu) & _). now exists s.
Qed.

Lemma step5_fixed : step5 out = Ok out.
Proof.
  unfold step5. f_equal.
  transitivity (mkFrame (columns out) (dtypes out) (rows out));
    [| apply df_eta].
  f_equal.
  transitivity (map (fun r => r) (rows out)); [| apply map_id].
  apply map_ext_in. intros r Hr.
  destruct (Hids r Hr) as (s & E & _).
  rewrite E, (step5_protein_other s (Hk77 r s Hr E)), <- E.
  now destruct r.
Qed.

Lemma step6_fixed : step6 out = Ok out.
Proof.
  unfold step6. f_equal. apply negated_filter_id. intros r Hr.
  destruct (Hids r Hr) as (s & E & _ & Hb). now exists s.
Qed.

Lemma step7_fixed : step7 out = Ok out.
Proof.
  rewrite (step7_wf out Hwf). f_equal.
  rewrite collapse_id; [apply df_eta | exact Hnodup |].
  intros r Hr. split; [| now apply Hsettled].
  destruct Hwf as (_ & _ & Hlen). rewrite Forall_forall in Hlen.
  now apply Hlen.
Qed.

Lemma run_filters_fixed : run_filters out = Ok out.
Proof.
  apply (run_filters_chain out out out out out out out out).
  - exact step1_fixed.
  - exact step2_fixed.
  - exact step3_fixed.
  - exact step4_fixed.
  - exact step5_fixed.
  - exact step6_fixed.
  - exact step7_fixed.
Qed.

End SecondRun.

(** * Well-formedness of the example tables *)

Section Examples.

Ltac wf_example :=
  unfold wf; repeat split;
  [ repeat constructor; simpl; intuition discriminate
  | repeat constructor ].

Lemma wf_scenario : wf scenario.
Proof. wf_example. Defined.

Lemma wf_two_P1 : wf two_P1.
Proof. wf_example. Defined.

Lemma wf_nested_k77 : wf nested_k77.
Proof. wf_example. Defined.


Lemma wf_partly_null : wf partly_null.
Proof. wf_example. Defined.

(** Row order after Stage 7 is that of first occurrence, not sorted. *)
Example step7_unsorted :
  step7 unsorted_keys =
  Ok (mkDF ["protein"; "S1"]
           [mkRow (Some "B") [Some 5]; mkRow (Some "A") [Some 2]]).
Proof. reflexivity. Qed.

(** Sums that cancel leave a row that Stage 2 removes in a second run. *)
Example cancelling_not_idempotent :
  run_filters cancelling = Ok cancelling_out /\
  run_filters cancelling_out = Ok (mkDF ["protein"; "S1"] []).
Proof. split; reflexivity. Qed.

(** A column without any number is a column of strings: Stage 2 cannot
    compare it with 0, and the run stops there. *)
Example empty_column_stops :
  step2 empty_column = Err ComputeError /\
  run_filters empty_column = Err ComputeError.
Proof. split; reflexivity. Qed.

(** Stage 1 compares with the empty string as it is: one space passes. *)
Example step1_with_space :
  step1 with_space = Ok (mkDF ["protein"; "S1"] [mkRow (Some " ") [None]]).
Proof. reflexivity. Qed.

Example extract_examples :
  extract_RepID "k77_cluster|RepID=ABC123|rest" = Some "ABC123" /\
  extract_RepID "k77x|RepID=|RepID=Q7" = Some "Q7" /\
  extract_RepID "k77_orphan" = None.
Proof. repeat split; reflexivity. Qed.

End Examples.

(** * The properties of the specification *)

(** C1.  On the scenario table of the specification the seven stages, run
    in order, leave exactly one row: identifier [Q1] with [S1 = 5] and
    [S2 = 5]. *)
Theorem scenario_end_to_end : run_filters scenario = Ok scenario_out.
Proof. vm_compute. reflexivity. Qed.




(** C3, as the code has it.  The output of a successful run holds only
    identifiers that are neither null nor empty and that match neither the
    contaminant, the unknown-RepID nor the blacklist markers, and no
    identifier twice.  A second run returns that same output provided no
    output identifier starts with [k77] and every output row has a non-zero
    intensity. *)
Theorem run_filters_second_run (df out : DataFrame) :
  wf df ->
  run_filters df = Ok out ->
  ids clean_id out /\
  NoDup (map protein (rows out)) /\
  ((forall r s, In r (rows out) -> protein r = Some s ->
                starts_with "k77" s = false) ->
   (forall r, In r (rows out) -> forallb zero_or_null (values r) = false) ->
   run_filters out = Ok out).
Proof.
  intros Hwf H.
  destruct (run_filters_post df out Hwf H)
    as (Hwfo & _ & Hvc & Hids & Hnd & _ & Hnum & Hset).
  split; [exact Hids |]. split; [exact Hnd |].
  intros Hk Hz. now apply run_filters_fixed.
Qed.

Lemma run_filters_second_run_witness :
  wf scenario /\ run_filters scenario = Ok scenario_out /\
  run_filters scenario_out = Ok scenario_out.
Proof.
  assert (H : run_filters scenario = Ok scenario_out) by reflexivity.
  split; [exact wf_scenario |]. split; [exact H |].
  destruct (run_filters_second_run scenario scenario_out wf_scenario H)
    as (_ & _ & Hrun).
  apply Hrun.
  - intros r s [<- | []] E. injection E as <-. reflexivity.
  - intros r [<- | []]. reflexivity.
Defined.

(** C3 as stated fails: the run on [nested_k77] succeeds with the single
    identifier [k77abc]; a second run takes that for a k77 identifier
    without RepID, nulls it and drops the row. *)
Lemma run_filters_not_idempotent :
  wf nested_k77 /\
  run_filters nested_k77 = Ok nested_k77_out /\
  run_filters nested_k77_out <> Ok nested_k77_out.
Proof.
  split; [exact wf_nested_k77 |]. split; [reflexivity |].
  vm_compute. discriminate.
Qed.

(** C4 at a table without intensity columns: the loop never sets [mask],
    [~mask] raises, and no table with the rows removed is returned. *)
Theorem step2_without_intensity_columns :
  value_cols only_identifiers = [] /\
  step2 only_identifiers = Err TypeError /\
  step2 only_identifiers <> Ok (mkDF ["protein"] []).
Proof.
  split; [reflexivity |]. split; [reflexivity | discriminate].
Qed.

(** With at least one intensity column Stage 2 does what C4 says: it keeps
    exactly the rows that have a value neither null nor zero. *)
Lemma step2_keeps_iff (df : DataFrame) :
  wf df ->
  value_cols df <> [] ->
  has_string_column df = false ->
  exists out,
    step2 df = Ok out /\ columns out = columns df /\
    forall r,
      In r (rows out) <->
      In r (rows df) /\ exists x, In (Some x) (values r) /\ x <> 0.
Proof.
  intros Hwf Hvc Hnum. eexists. split; [exact (step2_wf df Hwf Hvc Hnum) |].
  split; [reflexivity |]. intros r. simpl. rewrite filter_In.
  apply and_iff_compat_l.
  rewrite negb_true_iff, <- not_true_iff_false, forallb_forall. split.
  - intros H. destruct (existsb (fun v => negb (zero_or_null v)) (values r))
      eqn:E.
    + apply existsb_exists in E as ([x|] & Hin & Hx); [| discriminate].
      exists x. split; [exact Hin |]. simpl in Hx.
      apply negb_true_iff, Z.eqb_neq in Hx. exact Hx.
    + exfalso. apply H. intros v Hv.
      destruct (zero_or_null v) eqn:Ev; [reflexivity |].
      assert (existsb (fun v => negb (zero_or_null v)) (values r) = true).
      { apply existsb_exists. exists v. now rewrite Ev. }
      congruence.
  - intros (x & Hin & Hx) H. apply H in Hin. simpl in Hin.
    apply Z.eqb_eq in Hin. contradiction.
Qed.

Lemma Forall2_map_r {A B : Type} (R : A -> B -> Prop) (g : A -> B)
      (l : list A) :
  (forall a, In a l -> R a (g a)) -> Forall2 R l (map g l).
Proof.
  induction l as [|a l IH]; intros H; simpl; constructor.
  - apply H. now left.
  - apply IH. intros x Hx. apply H. now right.
Qed.

(** C5.  Stage 5 keeps the header, the rows' order and their intensities;
    it replaces an identifier that starts with [k77] by the first capture
    group of [RepID=([^|]+)] on it, which is the text behind the leftmost
    [RepID=] that is followed by a character other than ['|'], up to the
    next ['|'], and is null when the pattern matches nowhere, in particular
    when the identifier holds no [RepID=]; every other identifier, null
    included, stays as it is. *)
Theorem step5_rewrites_k77 (df : DataFrame) :
  (exists out,
     step5 df = Ok out /\ columns out = columns df /\
     Forall2 rewritten (rows df) (rows out)) /\
  (forall s cap,
     extract_RepID s = Some cap ->
     exists pre post,
       is_match s pre cap post /\
       forall pre' cap' post',
         is_match s pre' cap' post' ->
         (String.length pre <= String.length pre')%nat) /\
  (forall s,
     extract_RepID s = None -> forall pre cap post, ~ is_match s pre cap post) /\
  (forall s, contains "RepID=" s = false -> extract_RepID s = None).
Proof.
  split; [| split; [exact extract_RepID_Some |
                    split; [exact extract_RepID_None |
                            exact extract_RepID_no_segment]]].
  eexists. split; [reflexivity |]. split; [reflexivity |]. cbn [rows].
  apply Forall2_map_r. intros r _. unfold rewritten. cbn [protein values].
  split; [reflexivity |].
  destruct (protein r) as [s|]; [| reflexivity].
  destruct (starts_with "k77" s) eqn:E.
  - now apply step5_protein_k77.
  - now apply step5_protein_other.
Qed.

(** C6.  The header of the output of a successful run lists the intensity
    columns of the input, by the same names and in the same order, behind
    the identifier column. *)
Theorem run_filters_keeps_columns (df out : DataFrame) :
  run_filters df = Ok out ->
  value_cols out = value_cols df /\
  columns out = "protein" :: value_cols df.
Proof.
  intros H. split; [exact (run_filters_value_cols df out H) |].
  pose proof (run_filters_value_cols df out H) as Hv.
  apply run_filters_inv in H
    as (d1 & d2 & d3 & d4 & d5 & d6 & _ & _ & _ & _ & _ & _ & H7).
  pose proof (value_cols_step7 _ _ H7) as Hv7.
  unfold step7 in H7. apply Ok_inj in H7. subst out. simpl.
  f_equal. congruence.
Qed.

Lemma run_filters_keeps_columns_witness :
  run_filters scenario = Ok scenario_out /\
  value_cols scenario_out = value_cols scenario /\
  columns scenario_out = "protein" :: value_cols scenario.
Proof.
  assert (H : run_filters scenario = Ok scenario_out) by reflexivity.
  split; [exact H |].
  exact (run_filters_keeps_columns scenario scenario_out H).
Defined.

Lemma Clean_init_no_columns (raw : DataFrame) :
  columns raw = [] -> Clean_init raw = Err NoDataError.
Proof. intros H. unfold Clean_init, read_excel. now rewrite H. Qed.

Lemma Clean_init_columns (raw : DataFrame) (c : string) (rest : list string) :
  columns raw = c :: rest -> Clean_init raw = rename c "protein" raw.
Proof.
  intros H. unfold Clean_init, read_excel. rewrite H. cbn [bind].
  now rewrite H.
Qed.

(** C7, as the code has it.  The constructor fails with [NoDataError],
    raised by [pl.read_excel], exactly on a sheet without columns; it never
    fails with [IndexError] at [df.columns[0]] and never with
    [SchemaError].  When it fails the script fails with the same error
    before any stage runs.  When it succeeds the first column of the table
    is named [protein] and the rows are those of the sheet: a table without
    identifier column never reaches the stages. *)
Theorem Clean_init_outcome (raw : DataFrame) :
  (Clean_init raw = Err NoDataError <-> columns raw = []) /\
  Clean_init raw <> Err IndexError /\
  Clean_init raw <> Err SchemaError /\
  (forall e, Clean_init raw = Err e -> main raw = Err e) /\
  (forall df,
     Clean_init raw = Ok df ->
     exists rest', columns df = "protein" :: rest' /\ rows df = rows raw).
Proof.
  assert (Hmain : forall e, Clean_init raw = Err e -> main raw = Err e)
    by (intros e H; unfold main; now rewrite H).
  assert (Hcase :
            (columns raw = [] /\ Clean_init raw = Err NoDataError) \/
            (columns raw <> [] /\ Clean_init raw = Err DuplicateError) \/
            (columns raw <> [] /\
             exists rest', Clean_init raw =
                           Ok (mkFrame ("protein" :: rest') (dtypes raw)
                                       (rows raw)))).
  { destruct (columns raw) as [|c rest] eqn:E.
    - left. split; [reflexivity |]. now apply Clean_init_no_columns.
    - right. rewrite (Clean_init_columns raw c rest E).
      unfold rename. rewrite E. cbn [map]. rewrite String.eqb_refl.
      destruct (has_dup _); [left | right]; split; try discriminate;
        [reflexivity | now eexists]. }
  destruct Hcase as [[Hc He] | [[Hc He] | [Hc [rest' He]]]];
    (split; [rewrite He; split; intros H; (discriminate || congruence) |]);
    (split; [rewrite He; discriminate |]);
    (split; [rewrite He; discriminate |]);
    (split; [exact Hmain |]); intros df H; rewrite He in H;
    try discriminate.
  apply Ok_inj in H. subst df. now exists rest'.
Qed.

(** C7 as stated fails: on a sheet without columns the error is
    [NoDataError], not [SchemaError]. *)
Lemma no_columns_not_SchemaError :
  columns no_columns = [] /\
  main no_columns = Err NoDataError /\
  main no_columns <> Err SchemaError.
Proof.
  split; [reflexivity |]. split; [reflexivity | discriminate].
Qed.

(** C8.  Stage 1 keeps the header and, in their order, exactly the rows
    whose identifier is neither null nor the empty string; the decision
    reads the identifier only, and an identifier of one space passes. *)
Theorem step1_removes_exactly (df : DataFrame) :
  exists out,
    step1 df = Ok out /\ columns out = columns df /\
    rows out = filter (fun r => has_name (protein r)) (rows df) /\
    (forall r,
       In r (rows out) <->
       In r (rows df) /\ protein r <> None /\ protein r <> Some "") /\
    (forall vs,
       In (mkRow (Some " ") vs) (rows df) ->
       In (mkRow (Some " ") vs) (rows out)).
Proof.
  assert (Hk : forall r,
             keeps (fun r => kand (is_not_null (protein r))
                                  (str_ne (protein r) "")) r =
             has_name (protein r)).
  { intros r. unfold keeps. destruct (protein r) as [s|]; simpl;
      [| reflexivity]. now destruct (String.eqb s ""). }
  assert (Hn : forall p,
             has_name p = true <-> p <> None /\ p <> Some "").
  { intros [s|]; simpl.
    - rewrite negb_true_iff, String.eqb_neq.
      split; [intros H; split; congruence | intros [_ H] E; apply H; congruence].
    - split; [discriminate | intros [H _]; congruence]. }
  eexists. split; [reflexivity |]. split; [reflexivity |].
  assert (Hrows : rows (df_filter
                          (fun r => kand (is_not_null (protein r))
                                         (str_ne (protein r) "")) df) =
                  filter (fun r => has_name (protein r)) (rows df)).
  { simpl. now apply filter_ext. }
  split; [exact Hrows |]. rewrite Hrows. split.
  - intros r. rewrite filter_In, Hn. reflexivity.
  - intros vs H. apply filter_In. now split.
Qed.

(** C9.  Stage 6 lets no row with a null identifier through, so the keys
    that Stage 7 groups by are never null; a k77 identifier without
    [RepID=], nulled by Stage 5, is such a row. *)
Theorem step6_drops_null (df out : DataFrame) :
  step6 df = Ok out ->
  (forall r, In r (rows out) -> protein r <> None) /\
  (forall r, In r (rows df) -> protein r = None -> ~ In r (rows out)) /\
  (forall out7 r,
     step7 out = Ok out7 -> In r (rows out7) -> protein r <> None).
Proof.
  intros H. apply step6_post in H as [_ Hid].
  assert (Hnn : forall r, In r (rows out) -> protein r <> None).
  { intros r Hr. destruct (Hid r Hr) as (s & -> & _). discriminate. }
  split; [exact Hnn |]. split.
  - intros r _ E Hr. now apply (Hnn r Hr).
  - intros out7 r H7 Hr.
    assert (Hk : In (protein r) (map protein (rows out7))) by now apply in_map.
    rewrite (step7_keys _ _ H7) in Hk.
    apply In_first_occ, in_map_iff in Hk as (r0 & <- & Hr0).
    now apply Hnn.
Qed.

Lemma step6_drops_null_witness :
  bind (step5 k77_without_RepID) step6 =
  Ok (mkDF ["protein"; "S1"] [mkRow (Some "sp|P1") [Some 2]]) /\
  step6 with_null_id = Ok (mkDF ["protein"; "S1"] [mkRow (Some "A") [Some 2]]) /\
  forall r,
    In r (rows (mkDF ["protein"; "S1"] [mkRow (Some "A") [Some 2]])) ->
    protein r <> None.
Proof.
  assert (H : step6 with_null_id =
              Ok (mkDF ["protein"; "S1"] [mkRow (Some "A") [Some 2]]))
    by reflexivity.
  split; [reflexivity |]. split; [exact H |].
  exact (proj1 (step6_drops_null with_null_id _ H)).
Defined.

(** C10.  In a run every intensity that Stage 7 puts out is a number.  A
    table that got past Stage 2 has no column of strings, so each output
    intensity is the 64-bit sum over the rows of its identifier in the
    table that Stage 7 receives, null counting as 0: a group without a
    number in a column, be it a single row, comes out with 0 there and not
    with null. *)
Theorem step7_no_null (df out : DataFrame) :
  wf df ->
  run_filters df = Ok out ->
  exists d6,
    bind (bind (bind (bind (bind (step1 df) step2) step3) step4) step5)
         step6 = Ok d6 /\
    step7 d6 = Ok out /\
    has_string_column d6 = false /\
    forall r,
      In r (rows out) ->
      values r =
      map (fun j => Some (wrap64 (sum_at j (members (protein r) (rows d6)))))
          (seq 0 (length (value_cols df))) /\
      no_null_value r.
Proof.
  intros Hwf H.
  destruct (run_filters_schema df out H) as [_ Hnum].
  destruct (run_filters_post df out Hwf H) as (_ & _ & _ & _ & _ & Hnn & _).
  destruct (run_filters_stage6 df out Hwf H)
    as (d6 & Hchain & H7 & Hwf6 & C6 & T6).
  assert (Hnum6 : has_string_column d6 = false)
    by now rewrite (same_schema_numeric df d6 C6 T6).
  assert (Hv6 : value_cols d6 = value_cols df)
    by (unfold value_cols; now rewrite C6).
  exists d6. split; [exact Hchain |]. split; [exact H7 |].
  split; [exact Hnum6 |].
  intros r Hr. split; [| now apply Hnn].
  destruct (step7_post d6 out Hwf6 H7) as [_ R7]. rewrite R7 in Hr.
  unfold collapse in Hr. apply in_map_iff in Hr as (k & <- & _).
  cbn [protein values]. unfold group_total. rewrite Hv6.
  apply map_ext_in. intros j Hj. apply in_seq in Hj.
  rewrite (numeric_nth d6 j); [reflexivity | | exact Hnum6 |].
  - now destruct Hwf6 as (_ & Hnd & _).
  - rewrite Hv6. lia.
Qed.

(** A single row without a number in one column comes out with 0 there. *)
Lemma step7_no_null_witness :
  wf partly_null /\
  run_filters partly_null =
  Ok (mkDF ["protein"; "S1"; "S2"] [mkRow (Some "P1") [Some 1; Some 0]]) /\
  exists d6,
    bind (bind (bind (bind (bind (step1 partly_null) step2) step3) step4)
               step5) step6 = Ok d6 /\
    step7 d6 =
    Ok (mkDF ["protein"; "S1"; "S2"] [mkRow (Some "P1") [Some 1; Some 0]]) /\
    has_string_column d6 = false /\
    forall r,
      In r (rows (mkDF ["protein"; "S1"; "S2"]
                       [mkRow (Some "P1") [Some 1; Some 0]])) ->
      values r =
      map (fun j => Some (wrap64 (sum_at j (members (protein r) (rows d6)))))
          (seq 0 (length (value_cols partly_null))) /\
      no_null_value r.
Proof.
  assert (H : run_filters partly_null =
              Ok (mkDF ["protein"; "S1"; "S2"]
                       [mkRow (Some "P1") [Some 1; Some 0]]))
    by reflexivity.
  split; [exact wf_partly_null |]. split; [exact H |].
  exact (step7_no_null partly_null _ wf_partly_null H).
Defined.

(** * Substring search *)

Section Substrings.

Lemma length_append (a b : string) :
  String.length (a ++ b) = (String.length a + String.length b)%nat.
Proof. induction a as [|x a IH]; simpl; [reflexivity | now rewrite IH]. Qed.

Lemma contains_of_starts_with (p s : string) :
  starts_with p s = true -> contains p s = true.
Proof. intros H. destruct s; simpl in *; now rewrite H. Qed.

(** [contains p s] holds exactly when [p] occurs in [s]. *)
Lemma contains_iff (p s : string) :
  contains p s = true <-> exists pre post, s = pre ++ p ++ post.
Proof.
  split.
  - induction s as [|c s IH]; intros H.
    + simpl in H. rewrite orb_false_r in H.
      apply starts_with_app in H as [t Ht]. now exists EmptyString, t.
    + simpl in H. apply orb_true_iff in H as [H | H].
      * apply (starts_with_app p (String c s)) in H as [t Ht].
        now exists EmptyString, t.
      * destruct (IH H) as (pre & post & ->).
        now exists (String c pre), post.
  - intros (pre & post & ->). apply contains_append_l.
    apply contains_of_starts_with, starts_with_app. now exists post.
Qed.

Lemma to_lowercase_split (s a b : string) :
  to_lowercase s = a ++ b ->
  exists s1 s2, s = s1 ++ s2 /\ to_lowercase s1 = a /\ to_lowercase s2 = b.
Proof.
  revert s; induction a as [|x a IH]; intros s H.
  - now exists EmptyString, s.
  - destruct s as [|c s]; [discriminate |].
    simpl in H. injection H as Hc H.
    destruct (IH s H) as (s1 & s2 & -> & H1 & H2).
    exists (String c s1), s2. simpl. now rewrite Hc, H1.
Qed.

(** Case-insensitive search: some stretch of [s] reads [p] in lower case. *)
Lemma contains_lowercase_iff (p s : string) :
  contains p (to_lowercase s) = true <->
  exists pre m post, s = pre ++ m ++ post /\ to_lowercase m = p.
Proof.
  rewrite contains_iff. split.
  - intros (a & b & H).
    apply to_lowercase_split in H as (pre & rest & -> & _ & H).
    apply to_lowercase_split in H as (m & post & -> & Hm & _).
    now exists pre, m, post.
  - intros (pre & m & post & -> & <-).
    exists (to_lowercase pre), (to_lowercase post).
    now rewrite !to_lowercase_append.
Qed.

Lemma contains_any_iff (alts : list string) (s : string) :
  contains_any alts s = true <->
  exists a pre post, In a alts /\ s = pre ++ a ++ post.
Proof.
  unfold contains_any. rewrite existsb_exists. split.
  - intros (a & Ha & H). apply contains_iff in H as (pre & post & H).
    now exists a, pre, post.
  - intros (a & pre & post & Ha & H). exists a. split; [exact Ha |].
    apply contains_iff. now exists pre, post.
Qed.

End Substrings.

(** * Filters over the identifier *)

Section IdentifierFilters.

Lemma negated_filter_rows (f : string -> bool) (df : DataFrame) :
  rows (df_filter (fun r => knot (option_map f (protein r))) df) =
  filter (fun r => match protein r with
                   | Some s => negb (f s)
                   | None => false
                   end) (rows df).
Proof.
  unfold df_filter. cbn [rows]. apply filter_ext. intros r. unfold keeps.
  destruct (protein r) as [s|]; [| reflexivity].
  cbn [option_map knot]. now destruct (f s).
Qed.

Lemma negated_filter_In (f : string -> bool) (df : DataFrame) (r : Row) :
  In r (rows (df_filter (fun r => knot (option_map f (protein r))) df)) <->
  In r (rows df) /\ exists s, protein r = Some s /\ f s = false.
Proof.
  rewrite negated_filter_rows, filter_In. apply and_iff_compat_l.
  destruct (protein r) as [s|].
  - rewrite negb_true_iff. split.
    + intros H. now exists s.
    + intros (s' & E & H). congruence.
  - split; [discriminate | intros (s' & E & _); discriminate].
Qed.

End IdentifierFilters.

(** * Further properties of the stages *)

(** X1.  Stage 3 keeps the header and, in their order, exactly the rows
    whose identifier is not null and has no stretch that reads [contam]
    when lower-cased; the intensities play no part. *)
Theorem step3_removes_exactly (df : DataFrame) :
  exists out,
    step3 df = Ok out /\ columns out = columns df /\
    rows out =
    filter (fun r => match protein r with
                     | Some s => negb (contains "contam" (to_lowercase s))
                     | None => false
                     end) (rows df) /\
    forall r,
      In r (rows out) <->
      In r (rows df) /\
      exists s, protein r = Some s /\
                ~ exists pre m post,
                    s = pre ++ m ++ post /\ to_lowercase m = "contam".
Proof.
  eexists. split; [reflexivity |]. split; [reflexivity |].
  split; [apply negated_filter_rows |].
  intros r. rewrite negated_filter_In. apply and_iff_compat_l.
  split; intros (s & E & H); exists s; (split; [exact E |]).
  - rewrite <- contains_lowercase_iff. congruence.
  - rewrite <- contains_lowercase_iff in H.
    now destruct (contains "contam" (to_lowercase s)).
Qed.

(** X2.  Stage 4 keeps the header and, in their order, exactly the rows
    whose identifier is not null and does not hold the text
    [RepID=unknown], letter case as written. *)
Theorem step4_removes_exactly (df : DataFrame) :
  exists out,
    step4 df = Ok out /\ columns out = columns df /\
    rows out =
    filter (fun r => match protein r with
                     | Some s => negb (contains "RepID=unknown" s)
                     | None => false
                     end) (rows df) /\
    forall r,
      In r (rows out) <->
      In r (rows df) /\
      exists s, protein r = Some s /\
                ~ exists pre post, s = pre ++ "RepID=unknown" ++ post.
Proof.
  eexists. split; [reflexivity |]. split; [reflexivity |].
  split; [apply negated_filter_rows |].
  intros r. rewrite negated_filter_In. apply and_iff_compat_l.
  split; intros (s & E & H); exists s; (split; [exact E |]).
  - rewrite <- contains_iff. congruence.
  - rewrite <- contains_iff in H.
    now destruct (contains "RepID=unknown" s).
Qed.

(** X3.  Stage 6 keeps the header and, in their order, exactly the rows
    whose identifier is not null and holds none of the ten blacklisted
    fragments anywhere. *)
Theorem step6_removes_exactly (df : DataFrame) :
  exists out,
    step6 df = Ok out /\ columns out = columns df /\
    rows out =
    filter (fun r => match protein r with
                     | Some s => negb (contains_any blacklist s)
                     | None => false
                     end) (rows df) /\
    length blacklist = 10%nat /\
    forall r,
      In r (rows out) <->
      In r (rows df) /\
      exists s, protein r = Some s /\
                ~ exists b pre post,
                    In b blacklist /\ s = pre ++ b ++ post.
Proof.
  eexists. split; [reflexivity |]. split; [reflexivity |].
  split; [apply negated_filter_rows |]. split; [reflexivity |].
  intros r. rewrite negated_filter_In. apply and_iff_compat_l.
  split; intros (s & E & H); exists s; (split; [exact E |]).
  - rewrite <- contains_any_iff. congruence.
  - rewrite <- contains_any_iff in H.
    now destruct (contains_any blacklist s).
Qed.

(** X4.  On a table with at least one intensity column Stage 2 fails
    with [ComputeError] when one of the intensity columns is a column of
    strings, as a column without any number is; otherwise it succeeds,
    keeps the header and keeps exactly the rows that have some intensity
    that is neither null nor zero. *)
Theorem step2_keeps_nonzero (df : DataFrame) :
  wf df ->
  value_cols df <> [] ->
  if has_string_column df then step2 df = Err ComputeError
  else
    exists out,
      step2 df = Ok out /\ columns out = columns df /\
      rows out = filter (fun r => negb (forallb zero_or_null (values r)))
                        (rows df) /\
      forall r,
        In r (rows out) <->
        In r (rows df) /\ exists x, In (Some x) (values r) /\ x <> 0.
Proof.
  intros Hwf Hvc. destruct (has_string_column df) eqn:Hnum.
  - now apply step2_string_column.
  - destruct (step2_keeps_iff df Hwf Hvc Hnum) as (out & H & Hc & Hr).
    exists out. repeat split; try assumption; try (now apply Hr).
    rewrite (step2_wf df Hwf Hvc Hnum) in H. apply Ok_inj in H.
    now subst out.
Qed.

Lemma step2_keeps_nonzero_witness :
  wf empty_column /\ value_cols empty_column <> [] /\
  step2 empty_column = Err ComputeError.
Proof.
  assert (Hwf : wf empty_column).
  { unfold wf; repeat split;
      [ repeat constructor; simpl; intuition discriminate
      | repeat constructor ]. }
  assert (H : value_cols empty_column <> []) by discriminate.
  split; [exact Hwf |]. split; [exact H |].
  exact (step2_keeps_nonzero empty_column Hwf H).
Defined.

(** X5.  What Stage 5 puts in place of a k77 identifier is never empty,
    holds no ['|'] and is at least six characters shorter than the
    identifier: a k77 identifier never stays as it is. *)
Theorem extract_RepID_shorter (s cap : string) :
  extract_RepID s = Some cap ->
  cap <> EmptyString /\ bar_free cap = true /\
  (String.length cap + 6 <= String.length s)%nat /\
  (starts_with "k77" s = true -> step5_protein (Some s) <> Some s).
Proof.
  intros H. pose proof H as H0.
  apply extract_RepID_Some in H as (pre & post & (Hs & Hne & Hf & _) & _).
  assert (Hlen : (String.length cap + 6 <= String.length s)%nat).
  { rewrite Hs, !length_append. simpl. lia. }
  repeat split; try assumption.
  intros Hk. rewrite (step5_protein_k77 s Hk), H0.
  intros E. injection E as ->. lia.
Qed.

Lemma extract_RepID_shorter_witness :
  extract_RepID "k77x|RepID=Q1|y" = Some "Q1" /\
  ("Q1" <> EmptyString /\ bar_free "Q1" = true /\
   (String.length "Q1" + 6 <= String.length "k77x|RepID=Q1|y")%nat /\
   (starts_with "k77" "k77x|RepID=Q1|y" = true ->
    step5_protein (Some "k77x|RepID=Q1|y") <> Some "k77x|RepID=Q1|y")).
Proof.
  split; [reflexivity |].
  exact (extract_RepID_shorter "k77x|RepID=Q1|y" "Q1" eq_refl).
Defined.

(** * Row counts and column totals *)

Section Totals.

Lemma length_first_occ (ks : list (option string)) :
  (length (first_occ ks) <= length ks)%nat.
Proof.
  induction ks as [|k ks IH]; simpl; [lia |].
  pose proof (filter_length_le (fun k' => negb (key_eqb k' k)) (first_occ ks)).
  lia.
Qed.

Lemma step7_height (df out : DataFrame) :
  step7 df = Ok out -> (length (rows out) <= length (rows df))%nat.
Proof.
  intros H. apply step7_keys in H.
  rewrite <- (length_map protein (rows out)), H.
  rewrite <- (length_map protein (rows df)). apply length_first_occ.
Qed.

Lemma sub_table_filter_height (pred : Row -> option bool) (df : DataFrame) :
  (length (rows (df_filter pred df)) <= length (rows df))%nat.
Proof. apply filter_length_le. Qed.

Lemma wrap64_total {A : Type} (F : A -> Z) (l : list A) :
  wrap64 (fold_right Z.add 0 (map (fun a => wrap64 (F a)) l)) =
  wrap64 (fold_right Z.add 0 (map F l)).
Proof.
  induction l as [|a l IH]; [reflexivity |]. cbn [map fold_right].
  rewrite wrap64_add_l.
  rewrite <- wrap64_add_r, IH, wrap64_add_r. reflexivity.
Qed.

Variable j : nat.

Let total (F : option string -> Z) (l : list (option string)) : Z :=
  fold_right Z.add 0 (map F l).

Lemma total_without (F : option string -> Z) (k : option string)
      (l : list (option string)) :
  NoDup l -> In k l ->
  total F l = F k + total F (filter (fun k' => negb (key_eqb k' k)) l).
Proof.
  unfold total.
  induction 1 as [|a l Ha Hnd IH]; simpl; intros Hin; [contradiction |].
  destruct (key_eqb a k) eqn:E; simpl.
  - apply key_eqb_eq in E. subst a. f_equal.
    rewrite filter_all; [reflexivity |].
    intros k' Hk'. apply negb_true_iff, key_eqb_neq. congruence.
  - apply key_eqb_neq in E. destruct Hin as [-> | Hin]; [congruence |].
    rewrite (IH Hin). lia.
Qed.

(** The totals of the groups add up to the total of the table. *)
Lemma groups_total (rs : list Row) :
  total (fun k => sum_at j (members k rs)) (first_occ (map protein rs)) =
  sum_at j rs.
Proof.
  induction rs as [|r rs IH]; [reflexivity |].
  unfold total in *. cbn [map first_occ fold_right].
  set (k := protein r). set (ks := first_occ (map protein rs)) in *.
  set (v := null_as_zero (nth j (values r) None)).
  assert (Hk : sum_at j (members k (r :: rs)) = v + sum_at j (members k rs)).
  { unfold members. cbn [filter]. fold k. now rewrite key_eqb_refl. }
  assert (Hrest :
            map (fun k' => sum_at j (members k' (r :: rs)))
                (filter (fun k' => negb (key_eqb k' k)) ks) =
            map (fun k' => sum_at j (members k' rs))
                (filter (fun k' => negb (key_eqb k' k)) ks)).
  { apply map_ext_in. intros k' Hk'. apply filter_In in Hk' as [_ Hk'].
    apply negb_true_iff, key_eqb_neq in Hk'.
    unfold members. cbn [filter]. fold k.
    assert (E : key_eqb k k' = false) by (apply key_eqb_neq; congruence).
    now rewrite E. }
  rewrite Hk, Hrest.
  change (sum_at j (r :: rs)) with (v + sum_at j rs). rewrite <- IH.
  destruct (in_dec key_dec k ks) as [Hin | Hout].
  - pose proof (total_without (fun k' => sum_at j (members k' rs)) k ks
                              (NoDup_first_occ _) Hin) as Ht.
    unfold total in Ht. lia.
  - rewrite (members_none k rs)
      by (intros Hc; apply Hout; now apply In_first_occ).
    rewrite filter_all; [change (sum_at j []) with 0; lia |].
    intros k' Hk'. apply negb_true_iff, key_eqb_neq. congruence.
Qed.

(** In a column of whole numbers the collapse keeps the total, in 64
    bits. *)
Lemma sum_at_collapse (dts : list dtype) (n : nat) (rs : list Row) :
  (j < n)%nat ->
  nth j dts Int64 = Int64 ->
  wrap64 (sum_at j (collapse dts n rs)) = wrap64 (sum_at j rs).
Proof.
  intros Hj Hdt. rewrite <- (groups_total rs). unfold collapse, total.
  unfold sum_at at 1. rewrite map_map.
  rewrite <- (wrap64_total (fun k => sum_at j (members k rs))).
  do 2 f_equal. apply map_ext. intros k. cbn [values].
  now rewrite (nth_group_total dts n j _ Hj), Hdt.
Qed.

End Totals.

(** * Composition of the stages *)

Section Composition.

Lemma filter_comm {A : Type} (f g : A -> bool) (l : list A) :
  filter f (filter g l) = filter g (filter f l).
Proof.
  induction l as [|a l IH]; simpl; [reflexivity |].
  destruct (f a) eqn:Ef, (g a) eqn:Eg; simpl;
    rewrite ?Ef, ?Eg, IH; reflexivity.
Qed.

Lemma df_filter_comm (p q : Row -> option bool) (df : DataFrame) :
  df_filter p (df_filter q df) = df_filter q (df_filter p df).
Proof.
  unfold df_filter. cbn [columns dtypes rows]. f_equal. apply filter_comm.
Qed.

Lemma df_filter_idem (p : Row -> option bool) (df : DataFrame) :
  df_filter p (df_filter p df) = df_filter p df.
Proof.
  unfold df_filter. cbn [columns dtypes rows]. f_equal. apply filter_idem.
Qed.

Lemma step2_row_filter : row_filter step2.
Proof.
  intros df. unfold step2.
  destruct (step2_mask df) as [m|] eqn:E.
  - destruct (has_string_column df) eqn:Es; [left | right].
    + exists ComputeError. split; [reflexivity |]. intros p.
      change (step2_mask (df_filter p df)) with (step2_mask df).
      change (has_string_column (df_filter p df))
        with (has_string_column df).
      now rewrite E, Es.
    + exists (fun r => knot (m r)). split; [reflexivity |]. intros p.
      change (step2_mask (df_filter p df)) with (step2_mask df).
      change (has_string_column (df_filter p df))
        with (has_string_column df).
      now rewrite E, Es.
  - left. exists TypeError. split; [reflexivity |]. intros p.
    change (step2_mask (df_filter p df)) with (step2_mask df).
    now rewrite E.
Qed.

Lemma stages_split (step : DataFrame -> result DataFrame) :
  In step [step1; step2; step3; step4; step6] ->
  step = step2 \/ In step [step1; step3; step4; step6].
Proof.
  intros [<- | [<- | [<- | [<- | [<- | []]]]]]; simpl; tauto.
Qed.

Lemma stages_no_error (step : DataFrame -> result DataFrame) :
  In step [step1; step3; step4; step6] ->
  forall d e, step d <> Err e.
Proof.
  intros [<- | [<- | [<- | [<- | []]]]] d e; discriminate.
Qed.

Lemma stages_row_filter (step : DataFrame -> result DataFrame) :
  In step [step1; step2; step3; step4; step6] -> row_filter step.
Proof.
  intros [<- | [<- | [<- | [<- | [<- | []]]]]];
    try exact step2_row_filter;
    intros df; right; eexists; split; try reflexivity;
    intros p; reflexivity.
Qed.

Lemma row_filter_comm (a b : DataFrame -> result DataFrame) (df : DataFrame) :
  row_filter a -> row_filter b ->
  (forall d e, b d <> Err e) ->
  bind (a df) b = bind (b df) a.
Proof.
  intros Ha Hb Hne.
  destruct (Hb df) as [(eb & Eb & _) | (pb & Eb & Eb')];
    [now apply Hne in Eb |].
  destruct (Ha df) as [(ea & Ea & Ea') | (pa & Ea & Ea')];
    rewrite Ea, Eb; cbn [bind]; rewrite ?Ea', ?Eb'; try reflexivity.
  f_equal. apply df_filter_comm.
Qed.

Lemma row_filter_idem (a : DataFrame -> result DataFrame) (df : DataFrame) :
  row_filter a -> bind (a df) a = a df.
Proof.
  intros Ha. destruct (Ha df) as [(ea & Ea & Ea') | (pa & Ea & Ea')];
    rewrite Ea; cbn [bind]; [reflexivity |].
  rewrite Ea'. f_equal. apply df_filter_idem.
Qed.

Lemma step7_wf_out (df out : DataFrame) :
  wf df -> step7 df = Ok out -> wf out.
Proof.
  intros Hwf H. destruct (step7_post df out Hwf H) as [Hc Hr].
  destruct Hwf as (Hcols & Hnd & _).
  unfold wf, value_cols in *. rewrite Hc. repeat split; try assumption.
  apply Forall_forall. intros r Hin. rewrite Hr in Hin.
  now apply collapse_values in Hin.
Qed.

End Composition.

(** * The constructor *)

Section Constructor.

Lemma has_dup_false (l : list string) : has_dup l = false <-> NoDup l.
Proof.
  unfold has_dup. rewrite negb_false_iff, Nat.eqb_eq. split.
  - induction l as [|a l IH]; simpl; intros H; [constructor |].
    assert (Hle : (length (nodup string_dec l) <= length l)%nat).
    { apply NoDup_incl_length; [apply NoDup_nodup |].
      intros x Hx. now apply nodup_In in Hx. }
    destruct (in_dec string_dec a l) as [Hin | Hout]; [lia |].
    simpl in H. constructor; [exact Hout |]. apply IH. lia.
  - intros H. now rewrite nodup_fixed_point.
Qed.

Lemma Clean_init_cases (raw : DataFrame) (c : string) (rest : list string) :
  columns raw = c :: rest ->
  NoDup (c :: rest) ->
  (In "protein" rest /\ Clean_init raw = Err DuplicateError) \/
  (~ In "protein" rest /\
   Clean_init raw =
   Ok (mkFrame ("protein" :: rest) (dtypes raw) (rows raw))).
Proof.
  intros Hc Hnd. inversion Hnd as [|x l Hx Hnd']; subst.
  rewrite (Clean_init_columns raw c rest Hc).
  unfold rename. rewrite Hc. cbn [map].
  rewrite String.eqb_refl.
  assert (Hmap : map (fun x => if String.eqb x c then "protein" else x) rest
                 = rest).
  { rewrite <- (map_id rest) at 2. apply map_ext_in. intros x Hin.
    destruct (String.eqb x c) eqn:E; [| reflexivity].
    apply String.eqb_eq in E. subst x. contradiction. }
  rewrite Hmap.
  destruct (has_dup ("protein" :: rest)) eqn:E.
  - left. split; [| reflexivity].
    destruct (in_dec string_dec "protein" rest) as [Hin | Hout];
      [exact Hin |].
    assert (Hn : NoDup ("protein" :: rest)) by now constructor.
    apply has_dup_false in Hn. congruence.
  - right. split; [| reflexivity].
    apply has_dup_false in E. now inversion E.
Qed.

Lemma value_cols_protein_first (rest : list string) (dts : list dtype)
      (rs : list Row) :
  ~ In "protein" rest ->
  value_cols (mkFrame ("protein" :: rest) dts rs) = rest.
Proof.
  intros H. unfold value_cols. cbn [columns filter String.eqb].
  change (String.eqb "protein" "protein") with true. cbn [negb].
  apply filter_all. intros x Hx. apply negb_true_iff, String.eqb_neq.
  congruence.
Qed.

Lemma Clean_init_wf (raw df : DataFrame) :
  wf_raw raw ->
  Clean_init raw = Ok df ->
  wf df /\ rows df = rows raw /\ value_cols df = tl (columns raw).
Proof.
  intros (Hnd & Hlen) H.
  destruct (columns raw) as [|c rest] eqn:Hc.
  { rewrite (Clean_init_no_columns raw Hc) in H. discriminate. }
  destruct (Clean_init_cases raw c rest Hc Hnd) as [[_ E] | [Hout E]];
    rewrite E in H; [discriminate |].
  apply Ok_inj in H. subst df.
  pose proof (value_cols_protein_first rest (dtypes raw) (rows raw) Hout)
    as Hv.
  split; [| split; [reflexivity | exact Hv]].
  unfold wf. rewrite Hv. split; [reflexivity |]. split.
  - now inversion Hnd.
  - cbn [rows]. rewrite Forall_forall in *. intros r Hr.
    specialize (Hlen r Hr). simpl in Hlen. lia.
Qed.

End Constructor.

(** * The pipeline in one pass *)

Section OnePass.







End OnePass.

(** * Further properties of the pipeline *)


(** X7.  No stage adds a row: the output of a run has at most as many rows
    as its input. *)
Theorem run_filters_height (df out : DataFrame) :
  run_filters df = Ok out ->
  (length (rows out) <= length (rows df))%nat.
Proof.
  intros H.
  apply run_filters_inv in H
    as (d1 & d2 & d3 & d4 & d5 & d6 & H1 & H2 & H3 & H4 & H5 & H6 & H7).
  apply step7_height in H7.
  apply step2_is_filter in H2 as [pred ->].
  apply step5_post in H5 as [_ H5].
  unfold step1 in H1. apply Ok_inj in H1.
  unfold step3 in H3. apply Ok_inj in H3.
  unfold step4 in H4. apply Ok_inj in H4.
  unfold step6 in H6. apply Ok_inj in H6.
  assert (L6 : (length (rows d6) <= length (rows d5))%nat)
    by (rewrite <- H6; apply sub_table_filter_height).
  assert (L5 : length (rows d5) = length (rows d4))
    by (rewrite H5; apply length_map).
  assert (L4 : (length (rows d4) <= length (rows d3))%nat)
    by (rewrite <- H4; apply sub_table_filter_height).
  assert (L3 : (length (rows d3) <= length (rows (df_filter pred d1)))%nat)
    by (rewrite <- H3; apply sub_table_filter_height).
  pose proof (sub_table_filter_height pred d1) as L2.
  assert (L1 : (length (rows d1) <= length (rows df))%nat)
    by (rewrite <- H1; apply sub_table_filter_height).
  lia.
Qed.

Lemma run_filters_height_witness :
  run_filters scenario = Ok scenario_out /\
  (length (rows scenario_out) <= length (rows scenario))%nat.
Proof.
  assert (H : run_filters scenario = Ok scenario_out) by reflexivity.
  split; [exact H |]. exact (run_filters_height scenario scenario_out H).
Defined.

(** X8.  Stage 7 moves intensity between rows but loses none: in every
    column of whole numbers the values of the output add up, in 64 bits,
    to what the values of the input add up to, null counting as 0. *)
Theorem step7_preserves_totals (df out : DataFrame) (j : nat) :
  wf df ->
  step7 df = Ok out ->
  (j < length (value_cols df))%nat ->
  nth j (dtypes df) Int64 = Int64 ->
  wrap64 (sum_at j (rows out)) = wrap64 (sum_at j (rows df)).
Proof.
  intros Hwf H Hj Hdt. apply (step7_post df out Hwf) in H as [_ Hr].
  rewrite Hr. now apply sum_at_collapse.
Qed.

Lemma step7_preserves_totals_witness :
  wf two_P1 /\
  step7 two_P1 =
  Ok (mkDF ["protein"; "S1"; "S2"] [mkRow (Some "P1") [Some 4; Some 2]]) /\
  (1 < length (value_cols two_P1))%nat /\
  nth 1 (dtypes two_P1) Int64 = Int64 /\
  wrap64 (sum_at 1 [mkRow (Some "P1") [Some 4; Some 2]]) =
  wrap64 (sum_at 1 (rows two_P1)).
Proof.
  assert (H : step7 two_P1 =
              Ok (mkDF ["protein"; "S1"; "S2"]
                       [mkRow (Some "P1") [Some 4; Some 2]]))
    by reflexivity.
  assert (Hj : (1 < length (value_cols two_P1))%nat) by (simpl; lia).
  assert (Hdt : nth 1 (dtypes two_P1) Int64 = Int64) by reflexivity.
  split; [exact wf_two_P1 |]. split; [exact H |]. split; [exact Hj |].
  split; [exact Hdt |].
  exact (step7_preserves_totals two_P1 _ 1 wf_two_P1 H Hj Hdt).
Defined.

(** X9.  Collapsing twice is collapsing once: Stage 7 returns its own
    output unchanged. *)
Theorem step7_idempotent (df out : DataFrame) :
  wf df -> step7 df = Ok out -> step7 out = Ok out.
Proof.
  intros Hwf H.
  pose proof (step7_wf_out df out Hwf H) as Hwfo.
  pose proof (step7_keys df out H) as Hk.
  pose proof (step7_dtypes df out H) as Ht.
  destruct (step7_post df out Hwf H) as [_ Hr].
  rewrite (step7_wf out Hwfo). f_equal.
  rewrite collapse_id; [apply df_eta | |].
  - rewrite Hk. apply NoDup_first_occ.
  - intros r Hin. split.
    + destruct Hwfo as (_ & _ & Hlen). rewrite Forall_forall in Hlen.
      now apply Hlen.
    + rewrite Hr in Hin. rewrite Ht. now apply collapse_values in Hin.
Qed.

Lemma step7_idempotent_witness :
  wf two_P1 /\
  step7 two_P1 =
  Ok (mkDF ["protein"; "S1"; "S2"] [mkRow (Some "P1") [Some 4; Some 2]]) /\
  step7 (mkDF ["protein"; "S1"; "S2"] [mkRow (Some "P1") [Some 4; Some 2]]) =
  Ok (mkDF ["protein"; "S1"; "S2"] [mkRow (Some "P1") [Some 4; Some 2]]).
Proof.
  assert (H : step7 two_P1 =
              Ok (mkDF ["protein"; "S1"; "S2"]
                       [mkRow (Some "P1") [Some 4; Some 2]]))
    by reflexivity.
  split; [exact wf_two_P1 |]. split; [exact H |].
  exact (step7_idempotent two_P1 _ wf_two_P1 H).
Defined.

(** X10.  The five row filters, Stages 1, 2, 3, 4 and 6, can be run in any
    order and any number of times: two of them in a row give the same
    result, error included, in either order, and one of them run twice
    gives what it gives run once. *)
Theorem row_filters_commute (a b : DataFrame -> result DataFrame)
        (df : DataFrame) :
  In a [step1; step2; step3; step4; step6] ->
  In b [step1; step2; step3; step4; step6] ->
  bind (a df) b = bind (b df) a /\ bind (a df) a = a df.
Proof.
  intros Ha Hb. split.
  - destruct (stages_split b Hb) as [-> | Hb'].
    + destruct (stages_split a Ha) as [-> | Ha']; [reflexivity |].
      symmetry. apply row_filter_comm.
      * exact step2_row_filter.
      * now apply stages_row_filter.
      * now apply stages_no_error.
    + apply row_filter_comm.
      * now apply stages_row_filter.
      * now apply stages_row_filter.
      * now apply stages_no_error.
  - now apply row_filter_idem, stages_row_filter.
Qed.

Lemma row_filters_commute_witness :
  In step2 [step1; step2; step3; step4; step6] /\
  In step4 [step1; step2; step3; step4; step6] /\
  bind (step2 scenario) step4 = bind (step4 scenario) step2 /\
  bind (step2 scenario) step2 = step2 scenario.
Proof.
  assert (Ha : In step2 [step1; step2; step3; step4; step6])
    by (right; left; reflexivity).
  assert (Hb : In step4 [step1; step2; step3; step4; step6])
    by (right; right; right; left; reflexivity).
  split; [exact Ha |]. split; [exact Hb |].
  exact (row_filters_commute step2 step4 scenario Ha Hb).
Defined.

(** X11.  The pipeline invents no identifier: every identifier of the
    output is what Stage 5 makes of the identifier of some input row. *)
Theorem run_filters_provenance (df out : DataFrame) :
  run_filters df = Ok out ->
  forall r,
    In r (rows out) ->
    exists r0, In r0 (rows df) /\ protein r = step5_protein (protein r0).
Proof.
  intros H r Hr.
  apply run_filters_inv in H
    as (d1 & d2 & d3 & d4 & d5 & d6 & H1 & H2 & H3 & H4 & H5 & H6 & H7).
  assert (Hk : In (protein r) (map protein (rows out))) by now apply in_map.
  rewrite (step7_keys _ _ H7) in Hk.
  apply In_first_occ, in_map_iff in Hk as (r6 & <- & Hr6).
  apply step6_post in H6 as [[_ S6] _]. apply S6 in Hr6.
  apply step5_post in H5 as [_ H5]. rewrite H5 in Hr6.
  apply in_map_iff in Hr6 as (r4 & <- & Hr4).
  apply step4_post in H4 as [[_ S4] _]. apply step3_post in H3 as [[_ S3] _].
  apply step2_post in H2 as [[_ S2] _]. apply step1_post in H1 as [[_ S1] _].
  exists r4. split; [| reflexivity].
  apply S1, S2, S3, S4, Hr4.
Qed.

Lemma run_filters_provenance_witness :
  run_filters scenario = Ok scenario_out /\
  forall r,
    In r (rows scenario_out) ->
    exists r0, In r0 (rows scenario) /\
               protein r = step5_protein (protein r0).
Proof.
  assert (H : run_filters scenario = Ok scenario_out) by reflexivity.
  split; [exact H |]. exact (run_filters_provenance scenario scenario_out H).
Defined.

(** X12.  On a frame whose column names are distinct the constructor
    renames the first column to [protein] and keeps the other names, the
    dtypes and all rows, unless one of the other columns is called
    [protein] already: then it fails with [DuplicateError]. *)
Theorem Clean_init_renames_first (raw : DataFrame) (c : string)
        (rest : list string) :
  columns raw = c :: rest ->
  NoDup (c :: rest) ->
  Clean_init raw =
  if existsb (String.eqb "protein") rest then Err DuplicateError
  else Ok (mkFrame ("protein" :: rest) (dtypes raw) (rows raw)).
Proof.
  intros Hc Hnd.
  destruct (Clean_init_cases raw c rest Hc Hnd) as [[Hin ->] | [Hout ->]].
  - assert (E : existsb (String.eqb "protein") rest = true).
    { apply existsb_exists. exists "protein". split; [exact Hin |].
      apply String.eqb_refl. }
    now rewrite E.
  - destruct (existsb (String.eqb "protein") rest) eqn:E; [| reflexivity].
    apply existsb_exists in E as (x & Hx & E).
    apply String.eqb_eq in E. subst x. contradiction.
Qed.

Lemma Clean_init_renames_first_witness :
  columns raw_sheet_clash = ["id"; "protein"] /\
  NoDup ["id"; "protein"] /\
  Clean_init raw_sheet_clash = Err DuplicateError.
Proof.
  assert (Hnd : NoDup ["id"; "protein"])
    by (repeat constructor; simpl; intuition discriminate).
  split; [reflexivity |]. split; [exact Hnd |].
  exact (Clean_init_renames_first raw_sheet_clash "id" ["protein"]
                                  eq_refl Hnd).
Defined.

(** X13.  A frame that the constructor accepts is a table as the stages
    expect it: [protein] first, the intensity columns being the other
    columns of the sheet, one value per intensity column in every row, and
    the rows those of the sheet. *)
Theorem Clean_init_establishes_wf (raw df : DataFrame) :
  wf_raw raw ->
  Clean_init raw = Ok df ->
  wf df /\ rows df = rows raw /\ value_cols df = tl (columns raw).
Proof. exact (Clean_init_wf raw df). Qed.

Lemma Clean_init_establishes_wf_witness :
  wf_raw raw_sheet /\
  Clean_init raw_sheet = Ok (mkDF ["protein"; "S1"; "S2"] (rows raw_sheet)) /\
  wf (mkDF ["protein"; "S1"; "S2"] (rows raw_sheet)).
Proof.
  assert (Hraw : wf_raw raw_sheet).
  { split; [repeat constructor; simpl; intuition discriminate
           | repeat constructor]. }
  assert (H : Clean_init raw_sheet =
              Ok (mkDF ["protein"; "S1"; "S2"] (rows raw_sheet)))
    by reflexivity.
  split; [exact Hraw |]. split; [exact H |].
  exact (proj1 (Clean_init_establishes_wf raw_sheet _ Hraw H)).
Defined.

(** X14.  The script as a whole, on a well-formed sheet: when it returns a
    table, the header of that table is [protein] followed by the names of
    the sheet's other columns in their order, and no row has a null
    identifier or a null intensity. *)
Theorem main_header (raw out : DataFrame) :
  wf_raw raw ->
  main raw = Ok out ->
  columns out = "protein" :: tl (columns raw) /\
  forall r, In r (rows out) -> protein r <> None /\ no_null_value r.
Proof.
  intros Hraw H. unfold main in H.
  apply bind_Ok_inv in H as (df & Hinit & Hrun).
  destruct (Clean_init_wf raw df Hraw Hinit) as (Hwf & _ & Hv).
  destruct (run_filters_post df out Hwf Hrun)
    as (_ & Hc & _ & Hids & _ & Hnn & _).
  split.
  - rewrite Hc. destruct Hwf as (-> & _). now rewrite Hv.
  - intros r Hr. split; [| now apply Hnn].
    destruct (Hids r Hr) as (s & -> & _). discriminate.
Qed.

Lemma main_header_witness :
  wf_raw raw_sheet /\
  main raw_sheet =
  Ok (mkDF ["protein"; "S1"; "S2"] [mkRow (Some "Q1") [Some 5; Some 5]]) /\
  columns (mkDF ["protein"; "S1"; "S2"] [mkRow (Some "Q1") [Some 5; Some 5]]) =
  "protein" :: tl (columns raw_sheet).
Proof.
  assert (Hraw : wf_raw raw_sheet).
  { split; [repeat constructor; simpl; intuition discriminate
           | repeat constructor]. }
  assert (H : main raw_sheet =
              Ok (mkDF ["protein"; "S1"; "S2"]
                       [mkRow (Some "Q1") [Some 5; Some 5]]))
    by reflexivity.
  split; [exact Hraw |]. split; [exact H |].
  exact (proj1 (main_header raw_sheet _ Hraw H)).
Defined.


